(** * cve5: translation between vulnerability reports and CVE JSON 5.0 records

    A shallow embedding of the version-range translation of package [cve5]
    ([FromReport], [versionRangeToVersionRange], [affectedToModule],
    [convertVersions], [toVersionRange], [toUnsupported]) together with the
    properties the specification states about it.

    Go strings are byte strings; they are modelled by [string] (a list of
    8-bit characters).  A Go slice is modelled by a [list] ([nil] is the
    empty list). *)

From Stdlib Require Import String Ascii List Bool Arith NArith Lia.
From Stdlib Require Import Permutation Sorted.
Import ListNotations.
Open Scope string_scope.
Open Scope list_scope.

(** ** Characters used below *)

Definition newline : ascii := "010"%char.

(** ** Package [strings] of the Go standard library *)

Module strings.

(** [strings.HasPrefix(s, prefix)]. *)
Definition HasPrefix (s prefix : string) : bool := String.prefix prefix s.

(** [strings.HasSuffix(s, suffix)]:
    [len(s) >= len(suffix) && s[len(s)-len(suffix):] == suffix]. *)
Definition HasSuffix (s suffix : string) : bool :=
  (String.length suffix <=? String.length s)%nat &&
  String.eqb
    (String.substring (String.length s - String.length suffix)
                      (String.length suffix) s)
    suffix.

End strings.

(** ** Package [regexp] of the Go standard library

    Only the fragment the two patterns of the package use: a pattern
    anchored at both ends ([^ ... $]) made of literal text and of capture
    groups [(.+)].  [.] matches any character but a newline, [+] is greedy,
    and the match found is the one a backtracking search meets first. *)

Module regexp.

Inductive item : Type :=
| Lit (text : string)   (* literal text *)
| DotPlus.              (* the capture group (.+) *)

Definition Regexp : Type := list item.

(** Drop the first [n] characters. *)
Fixpoint skip (n : nat) (s : string) : string :=
  match n, s with
  | S n', String _ s' => skip n' s'
  | _, _ => s
  end.

(** [run re s] matches the whole of [s] against [re] and returns the text of
    the capture groups.  A group prefers to take one more character before
    it lets the remainder of the pattern try. *)
Fixpoint run (re : Regexp) : string -> option (list string) :=
  match re with
  | [] => fun s => match s with EmptyString => Some [] | _ => None end
  | Lit text :: re' => fun s =>
      if String.prefix text s then run re' (skip (String.length text) s)
      else None
  | DotPlus :: re' =>
      fix plus (s : string) : option (list string) :=
        match s with
        | EmptyString => None
        | String c s' =>
            if Ascii.eqb c newline then None
            else match plus s' with
                 | Some (g :: gs) => Some (String c g :: gs)
                 | _ => match run re' s' with
                        | Some gs => Some (String c EmptyString :: gs)
                        | None => None
                        end
                 end
        end
  end.

(** [re.FindStringSubmatch(s)]: [nil] when [s] does not match, else the
    whole match followed by the text of each group. *)
Definition FindStringSubmatch (re : Regexp) (s : string) : list string :=
  match run re s with
  | Some groups => s :: groups
  | None => []
  end.

End regexp.

(** ** Package [golang.org/x/mod/semver]

    [semver.IsValid] accepts [vMAJOR[.MINOR[.PATCH[-PRERELEASE][+BUILD]]]]. *)

Module semver.

Definition isDigit (c : ascii) : bool := ("0" <=? c)%char && (c <=? "9")%char.

Definition isIdentChar (c : ascii) : bool :=
  ("A" <=? c)%char && (c <=? "Z")%char
  || ("a" <=? c)%char && (c <=? "z")%char
  || ("0" <=? c)%char && (c <=? "9")%char
  || Ascii.eqb c "-".

(** The longest prefix of digits, and what follows it. *)
Fixpoint digits (v : string) : string * string :=
  match v with
  | String c v' =>
      if isDigit c then let (d, rest) := digits v' in (String c d, rest)
      else (EmptyString, v)
  | EmptyString => (EmptyString, EmptyString)
  end.

(** [parseInt]: a non-empty run of digits without a leading zero (unless it
    is the single digit 0); returns the rest of the text. *)
Definition parseInt (v : string) : option string :=
  match v with
  | EmptyString => None
  | String c v' =>
      if negb (isDigit c) then None
      else let (d, rest) := digits v' in
           if Ascii.eqb c "0" && negb (String.eqb d EmptyString) then None
           else Some rest
  end.

(** [isBadNum]: all digits, more than one of them, and a leading zero. *)
Definition isBadNum (v : string) : bool :=
  let (d, rest) := digits v in
  String.eqb rest EmptyString && (1 <? String.length d)%nat
  && match v with String c _ => Ascii.eqb c "0" | EmptyString => false end.

(** The scanning loop of [parsePrerelease], after the leading hyphen: [cur]
    is the identifier read so far ([v[start:i]]). *)
Fixpoint prereleaseLoop (cur v : string) : option string :=
  match v with
  | EmptyString =>
      if String.eqb cur EmptyString || isBadNum cur then None else Some v
  | String c v' =>
      if Ascii.eqb c "+" then
        if String.eqb cur EmptyString || isBadNum cur then None else Some v
      else if negb (isIdentChar c) && negb (Ascii.eqb c ".") then None
      else if Ascii.eqb c "." then
        if String.eqb cur EmptyString || isBadNum cur then None
        else prereleaseLoop EmptyString v'
      else prereleaseLoop (cur ++ String c EmptyString) v'
  end.

Definition parsePrerelease (v : string) : option string :=
  match v with
  | String "-" v' => prereleaseLoop EmptyString v'
  | _ => None
  end.

(** The scanning loop of [parseBuild], after the leading plus sign. *)
Fixpoint buildLoop (cur v : string) : option string :=
  match v with
  | EmptyString => if String.eqb cur EmptyString then None else Some v
  | String c v' =>
      if negb (isIdentChar c) && negb (Ascii.eqb c ".") then None
      else if Ascii.eqb c "." then
        if String.eqb cur EmptyString then None else buildLoop EmptyString v'
      else buildLoop (cur ++ String c EmptyString) v'
  end.

Definition parseBuild (v : string) : option string :=
  match v with
  | String "+" v' => buildLoop EmptyString v'
  | _ => None
  end.

(** What follows the patch number: an optional prerelease, an optional
    build, then the end of the text. *)
Definition parseTail (v : string) : bool :=
  let afterPre :=
    match v with
    | String "-" _ => parsePrerelease v
    | _ => Some v
    end in
  match afterPre with
  | None => false
  | Some v1 =>
      let afterBuild :=
        match v1 with
        | String "+" _ => parseBuild v1
        | _ => Some v1
        end in
      match afterBuild with
      | Some EmptyString => true
      | _ => false
      end
  end.

(** The [ok] result of [parse] on the text after the leading [v]. *)
Definition parseNumbers (v : string) : bool :=
  match parseInt v with
  | None => false
  | Some EmptyString => true
  | Some (String c v1) =>
      if negb (Ascii.eqb c ".") then false
      else match parseInt v1 with
           | None => false
           | Some EmptyString => true
           | Some (String c2 v2) =>
               if negb (Ascii.eqb c2 ".") then false
               else match parseInt v2 with
                    | None => false
                    | Some v3 => parseTail v3
                    end
           end
  end.

Definition IsValid (v : string) : bool :=
  match v with
  | String "v" v' => parseNumbers v'
  | _ => false
  end.

End semver.

(** ** Package [internal/version] *)

Module version.

(** Modelled from the spec: [version.IsValid] is declared in
    [internal/version], which is not among the sources read here.  The spec
    calls a version primitive valid iff it parses under the
    semantic-version grammar; the package works on versions without the
    [v] prefix and checks them with [semver.IsValid]. *)
Definition IsValid (v : string) : bool := semver.IsValid ("v" ++ v).

End version.

(** ** Package [internal/derrors] *)

Module derrors.

(** An error value: one made by [errors.New], or one wrapped by
    [derrors.Wrap] under a format and its arguments. *)
Inductive error : Type :=
| New (text : string)
| Wrapped (format : string) (args : list string) (cause : error).

(** Modelled from the spec: [derrors.Wrap] is declared in
    [internal/derrors], which is not among the sources read here.  A failure
    is surfaced to the caller as a wrapped error naming the identifier; when
    there is no error, nothing changes. *)
Definition Wrap (errp : option error) (format : string) (args : list string)
  : option error :=
  match errp with
  | Some e => Some (Wrapped format args e)
  | None => None
  end.

End derrors.

(** ** Package [internal/report]: the types the translation reads and builds

    [Module] and [Type] are reserved words, and a field cannot share the
    name of its record: such names carry a trailing underscore or the name
    of their struct. *)

Module report.

Record VersionRange : Type := {
  Introduced : string;
  Fixed : string
}.

Record UnsupportedVersion : Type := {
  Version : string;
  Type_ : string
}.

Record Package : Type := {
  Package_ : string;
  Symbols : list string;
  GOOS : list string
}.

Record ModuleT : Type := {
  Module_ : string;
  Versions : list VersionRange;
  UnsupportedVersions : list UnsupportedVersion;
  Packages : list Package
}.

Record CVEMeta : Type := {
  CVEMeta_ID : string;
  CVEMeta_CWE : string;
  CVEMeta_Description : string;
  CVEMeta_References : list string
}.

Record Reference : Type := {
  URL : string
}.

(** [Summary] and [Description] are string types; their [String] methods
    are the conversion to [string]. *)
Record Report : Type := {
  ID : string;
  Modules : list ModuleT;
  Summary : string;
  Description : string;
  Credits : list string;
  References : list Reference;
  CVEMetadata : option CVEMeta     (* a pointer: [None] is [nil] *)
}.

End report.

(** ** Package [cve5] *)

Module cve5.

(** *** The CVE JSON 5.0 record types used by the translation

    Modelled from the spec: the record types of the package and the
    constants [StatusAffected] and [StatusUnaffected] are declared in a file
    that is not among the sources read here.  The types below hold the
    fields the translation reads and writes; [Version] and [VersionStatus]
    are string types (the code compares them with string literals and
    prints them with [%s]); the two statuses the spec names Affected and
    Unaffected are spelled as the CVE JSON 5.0 schema spells them. *)

Definition Version : Type := string.
Definition VersionStatus : Type := string.

Definition StatusAffected : VersionStatus := "affected".
Definition StatusUnaffected : VersionStatus := "unaffected".

Record VersionRange : Type := {
  Introduced : Version;
  Fixed : Version;
  LessThanOrEqual : Version;
  Status : VersionStatus;
  VersionType : string
}.

Record ProgramRoutine : Type := {
  Name : string
}.

Record Affected : Type := {
  Vendor : string;
  Product : string;
  CollectionURL : string;
  PackageName : string;
  Versions : list VersionRange;
  Platforms : list string;
  ProgramRoutines : list ProgramRoutine;
  DefaultStatus : VersionStatus
}.

Record ProviderMetadata : Type := {
  OrgID : string
}.

Record Description : Type := {
  Lang : string;
  Value : string
}.

Record ProblemTypeDescription : Type := {
  ProblemTypeDescription_Lang : string;
  ProblemTypeDescription_Description : string
}.

Record ProblemType : Type := {
  ProblemType_Descriptions : list ProblemTypeDescription
}.

Record Reference : Type := {
  URL : string
}.

Record Credit : Type := {
  Credit_Lang : string;
  Credit_Value : string
}.

Record CNAPublishedContainer : Type := {
  ProviderMetadata_ : ProviderMetadata;
  Title : string;
  Descriptions : list Description;
  ProblemTypes : list ProblemType;
  Affected_ : list Affected;
  References : list Reference;
  Credits : list Credit
}.

Record Metadata : Type := {
  ID : string
}.

Record Containers : Type := {
  CNAContainer : CNAPublishedContainer
}.

Record CVERecord : Type := {
  DataType : string;
  DataVersion : string;
  Metadata_ : Metadata;
  Containers_ : Containers
}.

(** The zero value [VersionRange{}]. *)
Definition emptyVersionRange : VersionRange :=
  {| Introduced := ""; Fixed := ""; LessThanOrEqual := "";
     Status := ""; VersionType := "" |}.

(** Field assignments [vr.Introduced = v], [vr.Fixed = v], ... *)
Definition setIntroduced (v : Version) (vr : VersionRange) : VersionRange :=
  {| Introduced := v; Fixed := Fixed vr;
     LessThanOrEqual := LessThanOrEqual vr;
     Status := Status vr; VersionType := VersionType vr |}.

Definition setFixed (v : Version) (vr : VersionRange) : VersionRange :=
  {| Introduced := Introduced vr; Fixed := v;
     LessThanOrEqual := LessThanOrEqual vr;
     Status := Status vr; VersionType := VersionType vr |}.

Definition setStatus (st : VersionStatus) (vr : VersionRange) : VersionRange :=
  {| Introduced := Introduced vr; Fixed := Fixed vr;
     LessThanOrEqual := LessThanOrEqual vr;
     Status := st; VersionType := VersionType vr |}.

Definition setVersionType (t : string) (vr : VersionRange) : VersionRange :=
  {| Introduced := Introduced vr; Fixed := Fixed vr;
     LessThanOrEqual := LessThanOrEqual vr;
     Status := Status vr; VersionType := t |}.

(** [s != ""]. *)
Definition nonEmpty (s : string) : bool := negb (String.eqb s "").

(** *** Constants *)

Definition GoOrgUUID : string := "1bb62c36-49e3-4200-9d77-64a1400537cc".
Definition typeSemver : string := "semver".
Definition versionZero : string := "0".

(** *** [versionRangeToVersionRange] (the Range Normalizer) *)

(** One turn of the loop taken when there is no final fixed version.  The
    state is the range under construction [current] and the ranges emitted
    so far. *)
Definition unaffectedStep (st : VersionRange * list VersionRange)
  (vr : report.VersionRange) : VersionRange * list VersionRange :=
  let (current, cveVRs) := st in
  let st1 :=
    if nonEmpty (report.Introduced vr) then
      let current :=
        if String.eqb (Introduced current) "" then
          setIntroduced versionZero current
        else current in
      let current := setFixed (report.Introduced vr) current in
      let current := setStatus StatusUnaffected current in
      let current := setVersionType typeSemver current in
      (emptyVersionRange, cveVRs ++ [current])
    else (current, cveVRs) in
  let (current, cveVRs) := st1 in
  if nonEmpty (report.Fixed vr) then
    (setIntroduced (report.Fixed vr) current, cveVRs)
  else (current, cveVRs).

(** One turn of the loop that expresses the ranges as affected ranges. *)
Definition affectedStep (cveVRs : list VersionRange)
  (vr : report.VersionRange) : list VersionRange :=
  let cveVR :=
    {| Introduced := ""; Fixed := ""; LessThanOrEqual := "";
       Status := StatusAffected; VersionType := typeSemver |} in
  let cveVR :=
    if nonEmpty (report.Introduced vr) then
      setIntroduced (report.Introduced vr) cveVR
    else setIntroduced versionZero cveVR in
  let cveVR :=
    if nonEmpty (report.Fixed vr) then setFixed (report.Fixed vr) cveVR
    else cveVR in
  cveVRs ++ [cveVR].

(** [versions[len(versions)-1]] (for a non-empty slice). *)
Definition lastRange (versions : list report.VersionRange)
  : report.VersionRange :=
  last versions {| report.Introduced := ""; report.Fixed := "" |}.

Definition versionRangeToVersionRange (versions : list report.VersionRange)
  : list VersionRange * VersionStatus :=
  match versions with
  | [] => ([], StatusAffected)
  | _ =>
      if String.eqb (report.Fixed (lastRange versions)) "" then
        let (_, cveVRs) :=
          fold_left unaffectedStep versions (emptyVersionRange, []) in
        (cveVRs, StatusAffected)
      else
        (fold_left affectedStep versions [], StatusUnaffected)
  end.

(** *** [convertVersions], [toVersionRange], [toUnsupported]
        (the Range Recoverer) *)

(** [^>= (.+), < (.+)$] *)
Definition introducedFixedRE : regexp.Regexp :=
  [regexp.Lit ">= "; regexp.DotPlus; regexp.Lit ", < "; regexp.DotPlus].

(** [^< (.+)$] *)
Definition fixedRE : regexp.Regexp :=
  [regexp.Lit "< "; regexp.DotPlus].

(** The Go function returns a pointer and a flag, [(v, true)] or
    [(nil, false)]: here [Some v] or [None]. *)
Definition toVersionRange (cvr : VersionRange) (defaultStatus : VersionStatus)
  : option report.VersionRange :=
  match regexp.FindStringSubmatch introducedFixedRE (Introduced cvr) with
  | [_; m1; m2] =>
      Some {| report.Introduced := m1; report.Fixed := m2 |}
  | _ =>
  match regexp.FindStringSubmatch fixedRE (Introduced cvr) with
  | [_; m1] =>
      Some {| report.Introduced := ""; report.Fixed := m1 |}
  | _ =>
  if negb (String.eqb (VersionType cvr) typeSemver)
     || nonEmpty (LessThanOrEqual cvr)
     || negb (version.IsValid (Introduced cvr))
     || negb (version.IsValid (Fixed cvr))
     || negb (String.eqb (Status cvr) StatusAffected)
     || negb (String.eqb defaultStatus StatusUnaffected)
  then None
  else
    let introduced := Introduced cvr in
    let introduced := if String.eqb introduced "0" then "" else introduced in
    Some {| report.Introduced := introduced; report.Fixed := Fixed cvr |}
  end
  end.

(** [fmt.Sprintf] with [%s] verbs only, on string-typed arguments. *)
Definition toUnsupported (cvr : VersionRange) (defaultStatus : VersionStatus)
  : report.UnsupportedVersion :=
  let version : string :=
    if nonEmpty (Fixed cvr) then
      (Status cvr ++ " from " ++ Introduced cvr ++ " before " ++ Fixed cvr)%string
    else if nonEmpty (LessThanOrEqual cvr) then
      (Status cvr ++ " from " ++ Introduced cvr ++ " to " ++ Fixed cvr)%string
    else
      (Status cvr ++ " at " ++ Introduced cvr)%string in
  let version : string :=
    if nonEmpty defaultStatus then
      (version ++ " (default: " ++ defaultStatus ++ ")")%string
    else version in
  {| report.Version := version; report.Type_ := "cve_version_range" |}.

(** One turn of the loop of [convertVersions]; the state is [(vs, uvs)]. *)
Definition convertStep (defaultStatus : VersionStatus)
  (st : list report.VersionRange * list report.UnsupportedVersion)
  (vr : VersionRange)
  : list report.VersionRange * list report.UnsupportedVersion :=
  let (vs, uvs) := st in
  if String.eqb (Introduced vr) "n/a" then (vs, uvs)
  else match toVersionRange vr defaultStatus with
       | Some v => (vs ++ [v], uvs)
       | None => (vs, uvs ++ [toUnsupported vr defaultStatus])
       end.

Definition convertVersions (vrs : list VersionRange)
  (defaultStatus : VersionStatus)
  : list report.VersionRange * list report.UnsupportedVersion :=
  fold_left (convertStep defaultStatus) vrs ([], []).

(** *** [affectedToModule] (the Path Resolver) *)

(** The closure [isSet] of [affectedToModule]. *)
Definition isSet (s : string) : bool :=
  nonEmpty s && negb (String.eqb s "n/a").

Section PathResolver.

(** Package [internal/stdlib] is not among the sources read here: what
    [affectedToModule] uses of it is taken as parameters. *)
Variable stdlib_Contains : string -> bool.
Variable stdlib_ToolchainModulePath : string.
Variable stdlib_ModulePath : string.

Definition affectedToModule (a : Affected) (modulePath : string)
  : report.ModuleT :=
  let pkgPath :=
    if isSet (PackageName a) then PackageName a
    else if isSet (Product a) then Product a
    else if isSet (Vendor a) then Vendor a
    else modulePath in
  let pkgPath :=
    if strings.HasSuffix modulePath pkgPath then modulePath else pkgPath in
  let modulePath :=
    if stdlib_Contains pkgPath then
      if strings.HasPrefix pkgPath stdlib_ToolchainModulePath then
        stdlib_ToolchainModulePath
      else stdlib_ModulePath
    else modulePath in
  let symbols := map Name (ProgramRoutines a) in
  let (vs, uvs) := convertVersions (Versions a) (DefaultStatus a) in
  {| report.Module_ := modulePath;
     report.Versions := vs;
     report.UnsupportedVersions := uvs;
     report.Packages :=
       [ {| report.Package_ := pkgPath;
            report.Symbols := symbols;
            report.GOOS := Platforms a |} ] |}.

Definition affectedToModules (affecteds : list Affected) (modulePath : string)
  : list report.ModuleT :=
  match affecteds with
  | [] => [ {| report.Module_ := modulePath;
               report.Versions := [];
               report.UnsupportedVersions := [];
               report.Packages := [] |} ]
  | _ => map (fun a => affectedToModule a modulePath) affecteds
  end.

End PathResolver.

(** *** [FromReport] (the Record Assembler) *)

Section RecordAssembler.

(** Helpers of package [internal/report], not among the sources read here,
    taken as parameters: [report.RemoveNewlines], [report.Vendor],
    [report.GoAdvisory] and the method [Package.AllSymbols]. *)
Variable report_RemoveNewlines : string -> string.
Variable report_Vendor : string -> string.
Variable report_GoAdvisory : string -> string.
Variable report_AllSymbols : report.Package -> list string.

(** The [Affected] entries of one module: one per package. *)
Definition moduleAffected (m : report.ModuleT) : list Affected :=
  let (versions, defaultStatus) :=
    versionRangeToVersionRange (report.Versions m) in
  map (fun p =>
         {| Vendor := report_Vendor (report.Module_ m);
            Product := report.Package_ p;
            CollectionURL := "https://pkg.go.dev";
            PackageName := report.Package_ p;
            Versions := versions;
            Platforms := report.GOOS p;
            ProgramRoutines :=
              map (fun symbol => {| Name := symbol |}) (report_AllSymbols p);
            DefaultStatus := defaultStatus |})
      (report.Packages m).

(** The body of [FromReport], before the deferred [derrors.Wrap] runs. *)
Definition fromReportBody (r : report.Report)
  : option CVERecord * option derrors.error :=
  match report.CVEMetadata r with
  | None => (None, Some (derrors.New "report missing cve_metadata section"))
  | Some meta =>
      if String.eqb (report.CVEMeta_ID meta) "" then
        (None, Some (derrors.New "report missing CVE ID"))
      else
        let description :=
          if String.eqb (report.CVEMeta_Description meta) "" then
            report.Description r
          else report.CVEMeta_Description meta in
        if String.eqb (report.CVEMeta_CWE meta) "" then
          (None, Some (derrors.New "report missing CWE"))
        else
          let c :=
            {| ProviderMetadata_ := {| OrgID := GoOrgUUID |};
               Title := report_RemoveNewlines (report.Summary r);
               Descriptions :=
                 [ {| Lang := "en";
                      Value := report_RemoveNewlines description |} ];
               ProblemTypes :=
                 [ {| ProblemType_Descriptions :=
                        [ {| ProblemTypeDescription_Lang := "en";
                             ProblemTypeDescription_Description :=
                               report.CVEMeta_CWE meta |} ] |} ];
               Affected_ := flat_map moduleAffected (report.Modules r);
               References :=
                 map (fun ref => {| URL := report.URL ref |})
                     (report.References r)
                 ++ [ {| URL := report_GoAdvisory (report.ID r) |} ]
                 ++ map (fun ref => {| URL := ref |})
                        (report.CVEMeta_References meta);
               Credits :=
                 map (fun credit =>
                        {| Credit_Lang := "en"; Credit_Value := credit |})
                     (report.Credits r) |} in
          (Some {| DataType := "CVE_RECORD";
                   DataVersion := "5.0";
                   Metadata_ := {| ID := report.CVEMeta_ID meta |};
                   Containers_ := {| CNAContainer := c |} |},
           None)
  end.

Definition FromReport (r : report.Report)
  : option CVERecord * option derrors.error :=
  let (rec, err) := fromReportBody r in
  (rec, derrors.Wrap err "FromReport(%q)" [report.ID r]).

End RecordAssembler.

(** *** [cve5ToReport] (the Record Disassembler) *)

(** The method [SourceID] of [CVERecord]. *)
Definition SourceID (c : CVERecord) : string := ID (Metadata_ c).

Definition getCWE5 (c : CNAPublishedContainer) : string :=
  match ProblemTypes c with
  | [] => ""
  | pt :: _ =>
      match ProblemType_Descriptions pt with
      | [] => ""
      | d :: _ => ProblemTypeDescription_Description d
      end
  end.

Definition isGoCNA5 (c : CNAPublishedContainer) : bool :=
  String.eqb (OrgID (ProviderMetadata_ c)) GoOrgUUID.

Section RecordDisassembler.

Variable stdlib_Contains : string -> bool.
Variable stdlib_ToolchainModulePath : string.
Variable stdlib_ModulePath : string.

(** Helpers of package [internal/report], not among the sources read here,
    taken as parameters: [report.ReferenceFromUrl], and the method
    [Report.AddCVE], which updates the report it is called on and is
    modelled by state passing. *)
Variable report_ReferenceFromUrl : string -> report.Reference.
Variable report_AddCVE :
  report.Report -> string -> string -> bool -> report.Report.

(** One turn of the loop over the descriptions. *)
Definition descriptionStep (description : string) (d : Description) : string :=
  if String.eqb (Lang d) "en" then
    description ++ (Value d ++ String newline "")
  else description.

Definition cve5ToReport (c : CVERecord) (modulePath : string)
  : report.Report :=
  let cna := CNAContainer (Containers_ c) in
  let description := fold_left descriptionStep (Descriptions cna) ""%string in
  let credits := map Credit_Value (Credits cna) in
  let refs :=
    map (fun ref => report_ReferenceFromUrl (URL ref)) (References cna) in
  let r :=
    {| report.ID := "";
       report.Modules :=
         affectedToModules stdlib_Contains stdlib_ToolchainModulePath
                           stdlib_ModulePath (Affected_ cna) modulePath;
       report.Summary := Title cna;
       report.Description := description;
       report.Credits := credits;
       report.References := refs;
       report.CVEMetadata := None |} in
  report_AddCVE r (ID (Metadata_ c)) (getCWE5 cna) (isGoCNA5 cna).

(** The method [ToReport] of [CVERecord]. *)
Definition ToReport (c : CVERecord) (modulePath : string) : report.Report :=
  cve5ToReport c modulePath.

End RecordDisassembler.

End cve5.

(** ** Package [slices]

    [slices.Sort] on strings sorts in ascending order of Go's [<] on
    strings, the byte-wise lexicographic order ([String.leb]).  The order is
    total and antisymmetric, so the result is determined by the elements;
    it is computed here by insertion. *)

Module slices.

Fixpoint insert (x : string) (l : list string) : list string :=
  match l with
  | [] => [x]
  | y :: l' => if String.leb x y then x :: l else y :: insert x l'
  end.

Fixpoint Sort (l : list string) : list string :=
  match l with
  | [] => []
  | x :: l' => insert x (Sort l')
  end.

End slices.

(** ** Command [vulnreport]: the [create-excluded] and [xref] subcommands *)

Module vulnreport.

(** The field [assignee] of the command. *)
Record createExcluded : Type := {
  assignee : string
}.

Section CreateExcluded.

(** Not among the sources read here, taken as parameters: the issue type of
    package [internal/issues] with its field [Assignee] and its method
    [HasLabel]; [report.ExcludedReasons] and the method [ToLabel] of its
    elements; the method [skipReason] of the embedded [creator]. *)
Variable Issue : Type.
Variable Issue_Assignee : Issue -> string.
Variable Issue_HasLabel : Issue -> string -> bool.
Variable ExcludedReason : Type.
Variable report_ExcludedReasons : list ExcludedReason.
Variable ExcludedReason_ToLabel : ExcludedReason -> string.
Variable creator_skipReason : Issue -> string.

(** The loop of [isExcluded], which returns at the first label found. *)
Fixpoint isExcludedFrom (reasons : list ExcludedReason) (iss : Issue) : bool :=
  match reasons with
  | [] => false
  | er :: rest =>
      if Issue_HasLabel iss (ExcludedReason_ToLabel er) then true
      else isExcludedFrom rest iss
  end.

Definition isExcluded (iss : Issue) : bool :=
  isExcludedFrom report_ExcludedReasons iss.

Definition skipReason (c : createExcluded) (iss : Issue) : string :=
  if negb (isExcluded iss) then "not excluded"
  else if negb (String.eqb (assignee c) "")
          && negb (String.eqb (Issue_Assignee iss) (assignee c)) then
    "assigned to " ++ Issue_Assignee iss ++ ", not " ++ assignee c
  else creator_skipReason iss.

End CreateExcluded.

(** [sorted]: a sorted copy of the slice (the argument is left as it is). *)
Definition sorted (s : list string) : list string := slices.Sort s.

(** A [map[string][]string] as an association list; a Go map holds each key
    once, so the keys of the list are distinct, and the order of the list
    stands for the unspecified order in which a map is traversed. *)
Definition Matches : Type := list (string * list string).

(** [delete(m, key)]. *)
Definition mapDelete (key : string) (m : Matches) : Matches :=
  filter (fun kv => negb (String.eqb (fst kv) key)) m.

(** [maps.Keys(m)]. *)
Definition mapKeys (m : Matches) : list string := map fst m.

(** [m[key]], nil for a missing key. *)
Fixpoint mapIndex (m : Matches) (key : string) : list string :=
  match m with
  | [] => []
  | (k, v) :: m' => if String.eqb k key then v else mapIndex m' key
  end.

Section XRef.

(** Not among the sources read here, taken as parameters: the methods
    [XRef] and [Report] of the report client, and the methods
    [YAMLFilename] and [IsExcluded] and the field [Excluded] (as [%v]
    prints it) of a report. *)
Variable rc_XRef : report.Report -> Matches.
Variable rc_Report : string -> option report.Report.
Variable report_YAMLFilename : report.Report -> string * option derrors.error.
Variable report_IsExcluded : report.Report -> bool.
Variable report_Excluded : report.Report -> string.

(** The body of the inner loop: what one identifier adds to the text. *)
Definition xrefLine (fname : string) (out id : string) : string :=
  let out :=
    (out ++ (String newline "" ++ id ++ " appears in " ++ fname))%string in
  match rc_Report fname with
  | Some r =>
      if report_IsExcluded r then (out ++ ("  " ++ report_Excluded r))%string
      else out
  | None => out
  end.

Definition xref (r : report.Report) : string * option derrors.error :=
  let out := ""%string in
  let matches := rc_XRef r in
  let (filename, err) := report_YAMLFilename r in
  match err with
  | Some e => (""%string, Some e)
  | None =>
      let matches := mapDelete filename matches in
      let out :=
        fold_left
          (fun out fname =>
             fold_left (xrefLine fname) (sorted (mapIndex matches fname)) out)
          (sorted (mapKeys matches)) out in
      (out, None)
  end.

End XRef.

End vulnreport.

(** * Specification-side definitions *)

Module spec.

(** The Affected range the Normalizer writes for one internal range when the
    default status is Unaffected. *)
Definition affectedRange (vr : report.VersionRange) : cve5.VersionRange :=
  {| cve5.Introduced :=
       if cve5.nonEmpty (report.Introduced vr) then report.Introduced vr
       else "0";
     cve5.Fixed := report.Fixed vr;
     cve5.LessThanOrEqual := "";
     cve5.Status := cve5.StatusAffected;
     cve5.VersionType := cve5.typeSemver |}.

(** An Unaffected window [[from, upto)]. *)
Definition unaffectedRange (from upto : string) : cve5.VersionRange :=
  {| cve5.Introduced := from;
     cve5.Fixed := upto;
     cve5.LessThanOrEqual := "";
     cve5.Status := cve5.StatusUnaffected;
     cve5.VersionType := cve5.typeSemver |}.

(** Whether a range opens a window: it has an introduced boundary. *)
Definition hasIntroduced (vr : report.VersionRange) : bool :=
  cve5.nonEmpty (report.Introduced vr).

(** The fixed bound deferred for the next window, read backwards from the
    boundary: the fixed bound of the nearest earlier range that is not
    blank, if that range has one ([earlier] lists the preceding ranges,
    nearest first). *)
Fixpoint pendingFixed (earlier : list report.VersionRange) : string :=
  match earlier with
  | [] => ""
  | p :: before =>
      if cve5.nonEmpty (report.Fixed p) then report.Fixed p
      else if cve5.nonEmpty (report.Introduced p) then ""
      else pendingFixed before
  end.

(** Where the Unaffected window that ends at a boundary starts: the previous
    fixed bound, or the token "0". *)
Definition windowStart (before : list report.VersionRange) : string :=
  let f := pendingFixed (rev before) in
  if String.eqb f "" then "0" else f.

(** The fixed bound carried from one range to the next. *)
Definition carry (start : string) (vr : report.VersionRange) : string :=
  if cve5.nonEmpty (report.Fixed vr) then report.Fixed vr
  else if cve5.nonEmpty (report.Introduced vr) then ""
  else start.

(** The windows written for [versions] when [start] is carried in. *)
Fixpoint windows (start : string) (versions : list report.VersionRange)
  : list cve5.VersionRange :=
  match versions with
  | [] => []
  | vr :: rest =>
      (if hasIntroduced vr then
         [unaffectedRange (if String.eqb start "" then "0" else start)
                          (report.Introduced vr)]
       else [])
      ++ windows (carry start vr) rest
  end.

(** Every character of [s] satisfies [p]. *)
Fixpoint allChars (p : ascii -> bool) (s : string) : bool :=
  match s with
  | EmptyString => true
  | String c s' => p c && allChars p s'
  end.

(** Text a capture group [(.+)] can hold: not empty, no newline. *)
Definition groupText (s : string) : bool :=
  cve5.nonEmpty s && allChars (fun c => negb (Ascii.eqb c newline)) s.

Definition noComma (s : string) : bool :=
  allChars (fun c => negb (Ascii.eqb c ",")) s.

(** The resolution order of the Path Resolver: the package name if set, else
    the product, else the vendor, else the module path hint. *)
Definition preferredPath (a : cve5.Affected) (hint : string) : string :=
  if cve5.isSet (cve5.PackageName a) then cve5.PackageName a
  else if cve5.isSet (cve5.Product a) then cve5.Product a
  else if cve5.isSet (cve5.Vendor a) then cve5.Vendor a
  else hint.

(** The package paths of a module of a report. *)
Definition packagePaths (m : report.ModuleT) : list string :=
  map report.Package_ (report.Packages m).

(** A range of a report whose round trip is exact: the fixed bound is a
    valid version, the introduced bound is empty or a valid version other
    than the token "0". *)
Definition roundTrips (vr : report.VersionRange) : bool :=
  version.IsValid (report.Fixed vr)
  && (String.eqb (report.Introduced vr) ""
      || version.IsValid (report.Introduced vr)
         && negb (String.eqb (report.Introduced vr) "0")).

(** Both bounds of a range are valid versions. *)
Definition bothValid (vr : report.VersionRange) : bool :=
  version.IsValid (report.Introduced vr) && version.IsValid (report.Fixed vr).

(** Each bound of a range is empty or a valid version. *)
Definition validOrEmpty (vr : report.VersionRange) : bool :=
  (String.eqb (report.Introduced vr) "" || version.IsValid (report.Introduced vr))
  && (String.eqb (report.Fixed vr) "" || version.IsValid (report.Fixed vr)).

(** What the Recoverer does with one external range: skip it, convert it,
    or degrade it to a note. *)
Definition recoveredOne (defaultStatus : string) (vr : cve5.VersionRange)
  : list report.VersionRange :=
  if String.eqb (cve5.Introduced vr) "n/a" then []
  else match cve5.toVersionRange vr defaultStatus with
       | Some v => [v]
       | None => []
       end.

Definition notedOne (defaultStatus : string) (vr : cve5.VersionRange)
  : list report.UnsupportedVersion :=
  if String.eqb (cve5.Introduced vr) "n/a" then []
  else match cve5.toVersionRange vr defaultStatus with
       | Some _ => []
       | None => [cve5.toUnsupported vr defaultStatus]
       end.

(** The "not applicable" sentinel in the introduced field. *)
Definition notApplicable (vr : cve5.VersionRange) : bool :=
  String.eqb (cve5.Introduced vr) "n/a".

(** An external range matches neither repair pattern. *)
Definition noRepair (vr : cve5.VersionRange) : Prop :=
  regexp.FindStringSubmatch cve5.introducedFixedRE (cve5.Introduced vr) = []
  /\ regexp.FindStringSubmatch cve5.fixedRE (cve5.Introduced vr) = [].

(** The ascending order of strings that [slices.Sort] sorts by. *)
Definition string_le (a b : string) : Prop := String.leb a b = true.

(** A report and stand-ins for the helpers of package [internal/report],
    used to instantiate the properties of the record translation. *)
Definition sampleModule : report.ModuleT :=
  {| report.Module_ := "example.com/m";
     report.Versions :=
       [ {| report.Introduced := ""; report.Fixed := "1.2.0" |};
         {| report.Introduced := "1.3.0"; report.Fixed := "1.3.5" |} ];
     report.UnsupportedVersions := [];
     report.Packages :=
       [ {| report.Package_ := "example.com/m/pkg";
            report.Symbols := ["Parse"];
            report.GOOS := ["linux"] |} ] |}.

Definition sampleReport : report.Report :=
  {| report.ID := "GO-2024-0001";
     report.Modules := [sampleModule];
     report.Summary := "Panic in example.com/m";
     report.Description := "Parse panics on malformed input.";
     report.Credits := ["A. Reporter"];
     report.References := [ {| report.URL := "https://example.com/fix" |} ];
     report.CVEMetadata :=
       Some {| report.CVEMeta_ID := "CVE-2024-0001";
               report.CVEMeta_CWE := "CWE-20: Improper Input Validation";
               report.CVEMeta_Description := "";
               report.CVEMeta_References := [] |} |}.

(** A second module, and a report over both modules. *)
Definition sampleModule2 : report.ModuleT :=
  {| report.Module_ := "example.com/n";
     report.Versions :=
       [ {| report.Introduced := ""; report.Fixed := "0.4.0" |} ];
     report.UnsupportedVersions := [];
     report.Packages :=
       [ {| report.Package_ := "example.com/n/q";
            report.Symbols := [];
            report.GOOS := [] |} ] |}.

Definition sampleReport2 : report.Report :=
  {| report.ID := "GO-2024-0002";
     report.Modules := [sampleModule; sampleModule2];
     report.Summary := "Panic in example.com/m and example.com/n";
     report.Description := "Parse panics on malformed input.";
     report.Credits := [];
     report.References := [];
     report.CVEMetadata :=
       Some {| report.CVEMeta_ID := "CVE-2024-0002";
               report.CVEMeta_CWE := "CWE-20: Improper Input Validation";
               report.CVEMeta_Description := "";
               report.CVEMeta_References := [] |} |}.

Definition sampleAdvisory (id : string) : string :=
  "https://pkg.go.dev/vuln/" ++ id.

Definition sampleFromReport
  : option cve5.CVERecord * option derrors.error :=
  cve5.FromReport (fun s => s) (fun s => s) sampleAdvisory report.Symbols
                  sampleReport.

Definition sampleFromReport2
  : option cve5.CVERecord * option derrors.error :=
  cve5.FromReport (fun s => s) (fun s => s) sampleAdvisory report.Symbols
                  sampleReport2.

(** The text [xref] writes for one identifier found in one file: a newline,
    "<id> appears in <file>", and, when the file holds an excluded report,
    two spaces and its excluded reason. *)
Definition xrefLineText (rc_Report : string -> option report.Report)
  (report_IsExcluded : report.Report -> bool)
  (report_Excluded : report.Report -> string)
  (fname id : string) : string :=
  String newline
    (id ++ " appears in " ++ fname
     ++ match rc_Report fname with
        | Some r' => if report_IsExcluded r' then "  " ++ report_Excluded r'
                     else ""
        | None => ""
        end).

End spec.

(** * Properties *)

(** ** Strings *)

Lemma nonEmpty_true (s : string) : cve5.nonEmpty s = true <-> s <> "".
Proof.
  unfold cve5.nonEmpty. rewrite negb_true_iff. apply String.eqb_neq.
Qed.

Lemma nonEmpty_false (s : string) : cve5.nonEmpty s = false <-> s = "".
Proof.
  unfold cve5.nonEmpty. rewrite negb_false_iff. apply String.eqb_eq.
Qed.

(** ** The Range Normalizer *)

Lemma affectedStep_app (acc : list cve5.VersionRange) (vr : report.VersionRange) :
  cve5.affectedStep acc vr = acc ++ [spec.affectedRange vr].
Proof.
  unfold cve5.affectedStep, spec.affectedRange. f_equal. f_equal.
  destruct vr as [i f]; simpl.
  destruct (cve5.nonEmpty i) eqn:Hi, (cve5.nonEmpty f) eqn:Hf; simpl;
    try reflexivity;
    apply nonEmpty_false in Hf; subst; reflexivity.
Qed.

Lemma fold_affectedStep (versions : list report.VersionRange) :
  forall acc,
    fold_left cve5.affectedStep versions acc
    = acc ++ map spec.affectedRange versions.
Proof.
  induction versions as [|vr rest IH]; intros acc; simpl.
  - now rewrite app_nil_r.
  - rewrite IH, affectedStep_app, <- app_assoc. reflexivity.
Qed.

Lemma unaffectedStep_windows (start : string) (acc : list cve5.VersionRange)
  (vr : report.VersionRange) :
  cve5.unaffectedStep (cve5.setIntroduced start cve5.emptyVersionRange, acc) vr
  = (cve5.setIntroduced (spec.carry start vr) cve5.emptyVersionRange,
     acc ++ (if spec.hasIntroduced vr then
               [spec.unaffectedRange (if String.eqb start "" then "0" else start)
                                     (report.Introduced vr)]
             else [])).
Proof.
  unfold cve5.unaffectedStep, spec.carry, spec.hasIntroduced.
  destruct vr as [i f]; simpl.
  destruct (cve5.nonEmpty i) eqn:Hi, (cve5.nonEmpty f) eqn:Hf; simpl;
    try rewrite app_nil_r; destruct (String.eqb start "") eqn:Hs;
    reflexivity.
Qed.

Lemma fold_unaffectedStep (versions : list report.VersionRange) :
  forall start acc,
    fold_left cve5.unaffectedStep versions
      (cve5.setIntroduced start cve5.emptyVersionRange, acc)
    = (cve5.setIntroduced (fold_left spec.carry versions start)
         cve5.emptyVersionRange,
       acc ++ spec.windows start versions).
Proof.
  induction versions as [|vr rest IH]; intros start acc; cbn [fold_left].
  - cbn. now rewrite app_nil_r.
  - rewrite unaffectedStep_windows, IH, <- app_assoc. reflexivity.
Qed.

(** The two encodings of the Normalizer, in closed form. *)
Lemma versionRangeToVersionRange_eq (versions : list report.VersionRange) :
  cve5.versionRangeToVersionRange versions
  = match versions with
    | [] => ([], cve5.StatusAffected)
    | _ => if String.eqb (report.Fixed (cve5.lastRange versions)) ""
           then (spec.windows "" versions, cve5.StatusAffected)
           else (map spec.affectedRange versions, cve5.StatusUnaffected)
    end.
Proof.
  destruct versions as [|v0 rest]; [reflexivity|].
  unfold cve5.versionRangeToVersionRange.
  destruct (String.eqb _ _).
  - change (cve5.emptyVersionRange)
      with (cve5.setIntroduced "" cve5.emptyVersionRange).
    now rewrite fold_unaffectedStep.
  - now rewrite fold_affectedStep.
Qed.

Lemma windows_app (l1 l2 : list report.VersionRange) :
  forall start,
    spec.windows start (l1 ++ l2)
    = spec.windows start l1 ++ spec.windows (fold_left spec.carry l1 start) l2.
Proof.
  induction l1 as [|vr rest IH]; intros start; simpl; [reflexivity|].
  now rewrite IH, app_assoc.
Qed.

Lemma windows_length (l : list report.VersionRange) :
  forall start,
    length (spec.windows start l) = length (filter spec.hasIntroduced l).
Proof.
  induction l as [|vr rest IH]; intros start; simpl; [reflexivity|].
  rewrite length_app, IH. destruct (spec.hasIntroduced vr); reflexivity.
Qed.

Lemma windows_Fixed (l : list report.VersionRange) :
  forall start,
    map cve5.Fixed (spec.windows start l)
    = map report.Introduced (filter spec.hasIntroduced l).
Proof.
  induction l as [|vr rest IH]; intros start; simpl; [reflexivity|].
  rewrite map_app, IH. destruct (spec.hasIntroduced vr); reflexivity.
Qed.

Lemma windows_unaffected (l : list report.VersionRange) :
  forall start,
    Forall (fun x => cve5.Status x = cve5.StatusUnaffected
                     /\ cve5.VersionType x = cve5.typeSemver
                     /\ cve5.LessThanOrEqual x = "")
           (spec.windows start l).
Proof.
  induction l as [|vr rest IH]; intros start; simpl; [constructor|].
  apply Forall_app; split; [|apply IH].
  destruct (spec.hasIntroduced vr); repeat constructor.
Qed.

Lemma carry_pendingFixed (before : list report.VersionRange) :
  fold_left spec.carry before "" = spec.pendingFixed (rev before).
Proof.
  induction before as [|p before IH] using rev_ind; [reflexivity|].
  rewrite fold_left_app, rev_unit; simpl.
  unfold spec.carry at 1. now rewrite IH.
Qed.

Lemma windows_at_boundary (before after : list report.VersionRange)
  (vr : report.VersionRange) :
  report.Introduced vr <> "" ->
  nth_error (spec.windows "" (before ++ vr :: after))
            (length (filter spec.hasIntroduced before))
  = Some (spec.unaffectedRange (spec.windowStart before) (report.Introduced vr)).
Proof.
  intros Hi. rewrite windows_app, nth_error_app2 by (rewrite windows_length; lia).
  rewrite windows_length, Nat.sub_diag, carry_pendingFixed. simpl.
  unfold spec.hasIntroduced. apply nonEmpty_true in Hi. rewrite Hi. reflexivity.
Qed.

Lemma lastRange_nil_Fixed : report.Fixed (cve5.lastRange []) = "".
Proof. reflexivity. Qed.

(** C2: when the last internal range has an empty fixed bound, the
    Normalizer returns the default status Affected and writes one Unaffected
    range per introduced boundary, in order, each ending at that introduced
    version and starting at the previous fixed bound, or at the token "0"
    when no fixed bound precedes it (in particular at the dawn of history);
    for [{"", "1.2.0"}; {"1.3.0", ""}] it returns Affected and exactly the
    Unaffected range from "1.2.0" to "1.3.0". *)
Theorem normalizer_open_tail :
  (forall versions : list report.VersionRange,
      versions <> [] ->
      report.Fixed (cve5.lastRange versions) = "" ->
      let out := fst (cve5.versionRangeToVersionRange versions) in
      snd (cve5.versionRangeToVersionRange versions) = cve5.StatusAffected
      /\ length out = length (filter spec.hasIntroduced versions)
      /\ map cve5.Fixed out
         = map report.Introduced (filter spec.hasIntroduced versions)
      /\ Forall (fun x => cve5.Status x = cve5.StatusUnaffected
                          /\ cve5.VersionType x = cve5.typeSemver
                          /\ cve5.LessThanOrEqual x = "") out
      /\ (forall before vr after,
             versions = before ++ vr :: after ->
             report.Introduced vr <> "" ->
             nth_error out (length (filter spec.hasIntroduced before))
             = Some (spec.unaffectedRange (spec.windowStart before)
                                          (report.Introduced vr)))
      /\ (forall before p vr after,
             versions = before ++ p :: vr :: after ->
             report.Fixed p <> "" ->
             report.Introduced vr <> "" ->
             nth_error out (length (filter spec.hasIntroduced (before ++ [p])))
             = Some (spec.unaffectedRange (report.Fixed p)
                                          (report.Introduced vr)))
      /\ (forall vr after,
             versions = vr :: after ->
             report.Introduced vr <> "" ->
             nth_error out 0
             = Some (spec.unaffectedRange "0" (report.Introduced vr))))
  /\ cve5.versionRangeToVersionRange
       [ {| report.Introduced := ""; report.Fixed := "1.2.0" |};
         {| report.Introduced := "1.3.0"; report.Fixed := "" |} ]
     = ([ {| cve5.Introduced := "1.2.0"; cve5.Fixed := "1.3.0";
             cve5.LessThanOrEqual := "";
             cve5.Status := cve5.StatusUnaffected;
             cve5.VersionType := cve5.typeSemver |} ],
        cve5.StatusAffected).
Proof.
  split; [|reflexivity].
  intros versions Hne Hlast out. subst out.
  rewrite versionRangeToVersionRange_eq.
  destruct versions as [|v0 rest]; [congruence|].
  rewrite Hlast. cbn [String.eqb fst snd].
  split; [reflexivity|].
  split; [apply windows_length|].
  split; [apply windows_Fixed|].
  split; [apply windows_unaffected|].
  split; [|split].
  - intros before vr after -> Hi. now apply windows_at_boundary.
  - intros before p vr after Heq Hf Hi.
    replace (before ++ p :: vr :: after) with ((before ++ [p]) ++ vr :: after)
      in Heq by now rewrite <- app_assoc.
    rewrite Heq, windows_at_boundary by assumption.
    unfold spec.windowStart. rewrite rev_unit. simpl.
    apply nonEmpty_true in Hf as Hf'. rewrite Hf'.
    apply String.eqb_neq in Hf. now rewrite Hf.
  - intros vr after Heq Hi.
    rewrite Heq. exact (windows_at_boundary [] after vr Hi).
Qed.

Lemma normalizer_open_tail_witness :
  nth_error
    (fst (cve5.versionRangeToVersionRange
            [ {| report.Introduced := ""; report.Fixed := "1.0.0" |};
              {| report.Introduced := "1.1.0"; report.Fixed := "1.2.0" |};
              {| report.Introduced := "1.3.0"; report.Fixed := "" |} ])) 1
  = Some (spec.unaffectedRange "1.2.0" "1.3.0").
Proof.
  refine (proj1 (proj2 (proj2 (proj2 (proj2 (proj2
            (proj1 normalizer_open_tail _ _ _))))))
            [ {| report.Introduced := ""; report.Fixed := "1.0.0" |} ]
            {| report.Introduced := "1.1.0"; report.Fixed := "1.2.0" |}
            {| report.Introduced := "1.3.0"; report.Fixed := "" |}
            [] _ _ _).
  - discriminate.
  - reflexivity.
  - reflexivity.
  - simpl. discriminate.
  - simpl. discriminate.
Defined.

Lemma lastRange_last (init : list report.VersionRange)
  (final : report.VersionRange) :
  cve5.lastRange (init ++ [final]) = final.
Proof. unfold cve5.lastRange. apply last_last. Qed.

(** The Normalizer on a sequence whose final range is [final]. *)
Lemma normalizer_by_final (init : list report.VersionRange)
  (final : report.VersionRange) :
  cve5.versionRangeToVersionRange (init ++ [final])
  = if String.eqb (report.Fixed final) ""
    then (spec.windows "" (init ++ [final]), cve5.StatusAffected)
    else (map spec.affectedRange (init ++ [final]), cve5.StatusUnaffected).
Proof.
  rewrite versionRangeToVersionRange_eq, lastRange_last.
  destruct (init ++ [final]) as [|v0 rest] eqn:E; [|reflexivity].
  now destruct init.
Qed.

(** C3: the default status the Normalizer returns is Affected iff the
    sequence is empty or its final range (the last element of the sequence)
    has an empty fixed field, and Unaffected otherwise; the empty sequence
    yields (nil, Affected); and the test on the final range alone selects
    the encoding: Unaffected windows when its fixed field is empty, one
    Affected range per input range when it is not. *)
Theorem normalizer_default_status :
  cve5.versionRangeToVersionRange [] = ([], cve5.StatusAffected)
  /\ (forall versions,
         snd (cve5.versionRangeToVersionRange versions) = cve5.StatusAffected
         <-> versions = []
             \/ exists init final,
                  versions = init ++ [final] /\ report.Fixed final = "")
  /\ (forall versions,
         snd (cve5.versionRangeToVersionRange versions) = cve5.StatusUnaffected
         <-> exists init final,
               versions = init ++ [final] /\ report.Fixed final <> "")
  /\ (forall init final,
         report.Fixed final = "" ->
         fst (cve5.versionRangeToVersionRange (init ++ [final]))
         = spec.windows "" (init ++ [final])
         /\ Forall (fun x => cve5.Status x = cve5.StatusUnaffected)
                   (fst (cve5.versionRangeToVersionRange (init ++ [final]))))
  /\ (forall init final,
         report.Fixed final <> "" ->
         fst (cve5.versionRangeToVersionRange (init ++ [final]))
         = map spec.affectedRange (init ++ [final])
         /\ Forall (fun x => cve5.Status x = cve5.StatusAffected)
                   (fst (cve5.versionRangeToVersionRange (init ++ [final])))).
Proof.
  assert (Hcases : forall versions : list report.VersionRange,
             versions = [] \/ exists init final, versions = init ++ [final]).
  { intros [|v0 rest]; [now left|right].
    destruct (exists_last (l := v0 :: rest)) as (init & final & E);
      [discriminate|]. now exists init, final. }
  split; [reflexivity|]. split; [|split; [|split]].
  - intros versions. destruct (Hcases versions) as [->|(init & final & ->)].
    + split; [now left|reflexivity].
    + rewrite normalizer_by_final.
      destruct (String.eqb_spec (report.Fixed final) "") as [He|Hn];
        cbn [snd].
      * split; [|reflexivity]. intros _. right. now exists init, final.
      * split; [discriminate|].
        intros [H|(init' & final' & E & Hf)];
          [now destruct init|].
        apply app_inj_tail in E as [_ <-]. contradiction.
  - intros versions. destruct (Hcases versions) as [->|(init & final & ->)].
    + split; [discriminate|]. intros (init & final & E & _). now destruct init.
    + rewrite normalizer_by_final.
      destruct (String.eqb_spec (report.Fixed final) "") as [He|Hn];
        cbn [snd].
      * split; [discriminate|]. intros (init' & final' & E & Hf).
        apply app_inj_tail in E as [_ <-]. contradiction.
      * split; [|reflexivity]. intros _. now exists init, final.
  - intros init final Hf. rewrite normalizer_by_final, Hf. cbn [String.eqb fst].
    split; [reflexivity|].
    eapply Forall_impl; [|apply windows_unaffected]. simpl; tauto.
  - intros init final Hf. rewrite normalizer_by_final.
    apply String.eqb_neq in Hf. rewrite Hf. cbn [fst].
    split; [reflexivity|].
    apply Forall_forall. intros x Hx. apply in_map_iff in Hx.
    destruct Hx as [vr [<- _]]. reflexivity.
Qed.

Lemma normalizer_default_status_witness :
  snd (cve5.versionRangeToVersionRange
         [ {| report.Introduced := "1.0.0"; report.Fixed := "" |};
           {| report.Introduced := "1.5.0"; report.Fixed := "2.0.0" |} ])
  = cve5.StatusUnaffected.
Proof.
  apply (proj1 (proj2 (proj2 normalizer_default_status))).
  exists [ {| report.Introduced := "1.0.0"; report.Fixed := "" |} ],
         {| report.Introduced := "1.5.0"; report.Fixed := "2.0.0" |}.
  split; [reflexivity|discriminate].
Defined.

(** C10: for the single fully open internal range (introduced and fixed both
    empty) the Normalizer returns (nil, Affected), the very output it gives
    for the empty sequence. *)
Theorem normalizer_fully_open_singleton :
  cve5.versionRangeToVersionRange
    [ {| report.Introduced := ""; report.Fixed := "" |} ]
  = ([], cve5.StatusAffected)
  /\ cve5.versionRangeToVersionRange
       [ {| report.Introduced := ""; report.Fixed := "" |} ]
     = cve5.versionRangeToVersionRange [].
Proof. split; reflexivity. Qed.

(** ** The two repair patterns *)

Lemma run_DotPlus_step (re : regexp.Regexp) (c : ascii) (s : string) :
  regexp.run (regexp.DotPlus :: re) (String c s)
  = if Ascii.eqb c newline then None
    else match regexp.run (regexp.DotPlus :: re) s with
         | Some (g :: gs) => Some (String c g :: gs)
         | _ => match regexp.run re s with
                | Some gs => Some (String c EmptyString :: gs)
                | None => None
                end
         end.
Proof. reflexivity. Qed.

Lemma run_DotPlus_empty (re : regexp.Regexp) :
  regexp.run (regexp.DotPlus :: re) "" = None.
Proof. reflexivity. Qed.

Lemma run_Lit_step (text : string) (re : regexp.Regexp) (s : string) :
  regexp.run (regexp.Lit text :: re) s
  = if String.prefix text s
    then regexp.run re (regexp.skip (String.length text) s)
    else None.
Proof. reflexivity. Qed.

Lemma prefix_empty (s : string) : String.prefix "" s = true.
Proof. destruct s; reflexivity. Qed.

Lemma prefix_append (text s : string) : String.prefix text (text ++ s) = true.
Proof.
  induction text as [|c text IH]; simpl; [apply prefix_empty|].
  destruct (ascii_dec c c); [exact IH|congruence].
Qed.

Lemma skip_append (text s : string) :
  regexp.skip (String.length text) (text ++ s) = s.
Proof.
  induction text as [|c text IH]; simpl; [destruct s; reflexivity|exact IH].
Qed.

Lemma run_Lit_append (text : string) (re : regexp.Regexp) (s : string) :
  regexp.run (regexp.Lit text :: re) (text ++ s) = regexp.run re s.
Proof. now rewrite run_Lit_step, prefix_append, skip_append. Qed.

(** A trailing group takes all of a text without newline. *)
Lemma run_last_group (b : string) :
  spec.groupText b = true -> regexp.run [regexp.DotPlus] b = Some [b].
Proof.
  unfold spec.groupText. intros H. apply andb_true_iff in H as [Hne Hall].
  destruct b as [|c b]; [discriminate|]. clear Hne.
  revert c Hall. induction b as [|c' b IH]; intros c Hall.
  - simpl in Hall. rewrite run_DotPlus_step.
    apply andb_true_iff in Hall as [Hc _]. apply negb_true_iff in Hc.
    now rewrite Hc.
  - cbn [spec.allChars] in Hall. apply andb_true_iff in Hall as [Hc Hall].
    rewrite run_DotPlus_step, (IH c' Hall).
    apply negb_true_iff in Hc. now rewrite Hc.
Qed.

(** The first pattern cannot match inside a text without comma. *)
Lemma run_no_comma (s : string) :
  spec.noComma s = true ->
  regexp.run [regexp.DotPlus; regexp.Lit ", < "; regexp.DotPlus] s = None.
Proof.
  unfold spec.noComma. induction s as [|c s IH]; intros H; [reflexivity|].
  cbn [spec.allChars] in H. apply andb_true_iff in H as [Hc Hs].
  rewrite run_DotPlus_step, (IH Hs).
  destruct (Ascii.eqb c newline); [reflexivity|].
  rewrite run_Lit_step.
  destruct s as [|c' s]; [reflexivity|].
  cbn [spec.allChars] in Hs. apply andb_true_iff in Hs as [Hc' _].
  apply negb_true_iff, Ascii.eqb_neq in Hc'.
  cbn [String.prefix]. destruct (ascii_dec "," c') as [E|_]; [|reflexivity].
  now subst c'.
Qed.

(** Greedy matching of [>= A, < B] when [B] holds no comma: the groups are
    exactly [A] and [B]. *)
Lemma run_first_group (a b : string) :
  spec.groupText a = true -> spec.groupText b = true ->
  spec.noComma b = true ->
  regexp.run [regexp.DotPlus; regexp.Lit ", < "; regexp.DotPlus]
             (a ++ ", < " ++ b)
  = Some [a; b].
Proof.
  intros Ha Hb Hcomma.
  assert (Htail : regexp.run [regexp.Lit ", < "; regexp.DotPlus] (", < " ++ b)
                  = Some [b]).
  { rewrite run_Lit_append. now apply run_last_group. }
  assert (Hstop : regexp.run [regexp.DotPlus; regexp.Lit ", < "; regexp.DotPlus]
                             (", < " ++ b) = None).
  { change (", < " ++ b)%string with (String "," (" < " ++ b)).
    rewrite run_DotPlus_step. cbn [Ascii.eqb newline Bool.eqb].
    rewrite run_no_comma by exact Hcomma.
    reflexivity. }
  unfold spec.groupText in Ha. apply andb_true_iff in Ha as [Hne Hall].
  destruct a as [|c a]; [discriminate|]. clear Hne.
  revert c Hall. induction a as [|c' a IH]; intros c Hall.
  - simpl in Hall. apply andb_true_iff in Hall as [Hc _].
    apply negb_true_iff in Hc.
    change (String c "" ++ ", < " ++ b)%string with (String c (", < " ++ b)).
    now rewrite run_DotPlus_step, Hc, Hstop, Htail.
  - cbn [spec.allChars] in Hall. apply andb_true_iff in Hall as [Hc Hall].
    apply negb_true_iff in Hc.
    change (String c (String c' a) ++ ", < " ++ b)%string
      with (String c (String c' a ++ ", < " ++ b)).
    now rewrite run_DotPlus_step, Hc, (IH c' Hall).
Qed.

Lemma find_first_pattern (a b : string) :
  spec.groupText a = true -> spec.groupText b = true ->
  spec.noComma b = true ->
  regexp.FindStringSubmatch cve5.introducedFixedRE (">= " ++ a ++ ", < " ++ b)
  = [(">= " ++ a ++ ", < " ++ b)%string; a; b].
Proof.
  intros Ha Hb Hc. unfold regexp.FindStringSubmatch, cve5.introducedFixedRE.
  now rewrite run_Lit_append, run_first_group.
Qed.

Lemma find_second_pattern (b : string) :
  spec.groupText b = true ->
  regexp.FindStringSubmatch cve5.fixedRE ("< " ++ b) = [("< " ++ b)%string; b].
Proof.
  intros Hb. unfold regexp.FindStringSubmatch, cve5.fixedRE.
  now rewrite run_Lit_append, run_last_group.
Qed.

(** A text the second pattern matches is not matched by the first. *)
Lemma second_pattern_excludes_first (s : string) :
  regexp.FindStringSubmatch cve5.fixedRE s <> [] ->
  regexp.FindStringSubmatch cve5.introducedFixedRE s = [].
Proof.
  unfold regexp.FindStringSubmatch, cve5.fixedRE, cve5.introducedFixedRE.
  rewrite !run_Lit_step. intros H.
  destruct s as [|c s]; [reflexivity|].
  cbn [String.prefix] in *.
  destruct (ascii_dec "<" c) as [<-|_]; [reflexivity|].
  now elim H.
Qed.

(** The direct-acceptance check, once no repair pattern matched. *)
Lemma toVersionRange_direct (cvr : cve5.VersionRange) (ds : string) :
  spec.noRepair cvr ->
  cve5.toVersionRange cvr ds
  = if negb (String.eqb (cve5.VersionType cvr) cve5.typeSemver)
       || cve5.nonEmpty (cve5.LessThanOrEqual cvr)
       || negb (version.IsValid (cve5.Introduced cvr))
       || negb (version.IsValid (cve5.Fixed cvr))
       || negb (String.eqb (cve5.Status cvr) cve5.StatusAffected)
       || negb (String.eqb ds cve5.StatusUnaffected)
    then None
    else Some {| report.Introduced :=
                   if String.eqb (cve5.Introduced cvr) "0" then ""
                   else cve5.Introduced cvr;
                 report.Fixed := cve5.Fixed cvr |}.
Proof.
  intros [H1 H2]. unfold cve5.toVersionRange. now rewrite H1, H2.
Qed.

(** C4: an external range that matches neither repair pattern is converted
    directly iff its versionType is the semver tag, lessThanOrEqual is
    unset, introduced and fixed are both valid versions, its status is
    Affected and the default status is Unaffected; the internal range then
    has the input's introduced (empty when it is "0") and the input's
    fixed. *)
Theorem toVersionRange_direct_acceptance
  (cvr : cve5.VersionRange) (defaultStatus : string) :
  spec.noRepair cvr ->
  ((exists v, cve5.toVersionRange cvr defaultStatus = Some v)
   <-> (cve5.VersionType cvr = cve5.typeSemver
        /\ cve5.LessThanOrEqual cvr = ""
        /\ version.IsValid (cve5.Introduced cvr) = true
        /\ version.IsValid (cve5.Fixed cvr) = true
        /\ cve5.Status cvr = cve5.StatusAffected
        /\ defaultStatus = cve5.StatusUnaffected))
  /\ (forall v, cve5.toVersionRange cvr defaultStatus = Some v ->
        v = {| report.Introduced :=
                 if String.eqb (cve5.Introduced cvr) "0" then ""
                 else cve5.Introduced cvr;
               report.Fixed := cve5.Fixed cvr |}).
Proof.
  intros Hno. rewrite (toVersionRange_direct cvr defaultStatus Hno).
  split; [split|].
  - intros [v Hv].
    destruct (String.eqb_spec (cve5.VersionType cvr) cve5.typeSemver);
      [|discriminate].
    destruct (cve5.nonEmpty (cve5.LessThanOrEqual cvr)) eqn:Hlte;
      [discriminate|].
    destruct (version.IsValid (cve5.Introduced cvr)); [|discriminate].
    destruct (version.IsValid (cve5.Fixed cvr)); [|discriminate].
    destruct (String.eqb_spec (cve5.Status cvr) cve5.StatusAffected);
      [|discriminate].
    destruct (String.eqb_spec defaultStatus cve5.StatusUnaffected);
      [|discriminate].
    apply nonEmpty_false in Hlte. auto 10.
  - intros (Ht & Hl & Hi & Hf & Hs & Hd).
    rewrite Ht, Hi, Hf, Hs, Hd, !String.eqb_refl.
    apply nonEmpty_false in Hl. rewrite Hl. simpl. eauto.
  - intros v Hv. destruct (_ || _); [discriminate|]. now inversion Hv.
Qed.

Lemma toVersionRange_direct_acceptance_witness :
  exists v,
    cve5.toVersionRange
      {| cve5.Introduced := "0"; cve5.Fixed := "1.2.0";
         cve5.LessThanOrEqual := ""; cve5.Status := "affected";
         cve5.VersionType := "semver" |} "unaffected" = Some v.
Proof.
  apply (toVersionRange_direct_acceptance
           {| cve5.Introduced := "0"; cve5.Fixed := "1.2.0";
              cve5.LessThanOrEqual := ""; cve5.Status := "affected";
              cve5.VersionType := "semver" |} "unaffected").
  - split; reflexivity.
  - repeat split; reflexivity.
Defined.

(** C5: pattern repair comes before the direct-acceptance check and looks at
    the introduced field only (status, versionType, lessThanOrEqual, fixed
    and default status play no part): an introduced field matching
    [>= A, < B] yields the internal range from A to B, and otherwise one
    matching [< B] yields the internal range with fixed bound B alone; so
    ">= 1.0.0, < 2.0.0" yields {"1.0.0", "2.0.0"} and "< 3.0.0" yields
    {"", "3.0.0"}. *)
Theorem toVersionRange_repair :
  (forall (cvr : cve5.VersionRange) (defaultStatus : string),
      (forall whole a b,
          regexp.FindStringSubmatch cve5.introducedFixedRE (cve5.Introduced cvr)
          = [whole; a; b] ->
          cve5.toVersionRange cvr defaultStatus
          = Some {| report.Introduced := a; report.Fixed := b |})
      /\ (forall whole b,
             regexp.FindStringSubmatch cve5.fixedRE (cve5.Introduced cvr)
             = [whole; b] ->
             cve5.toVersionRange cvr defaultStatus
             = Some {| report.Introduced := ""; report.Fixed := b |})
      /\ (forall a b,
             spec.groupText a = true -> spec.groupText b = true ->
             spec.noComma b = true ->
             cve5.Introduced cvr = (">= " ++ a ++ ", < " ++ b)%string ->
             cve5.toVersionRange cvr defaultStatus
             = Some {| report.Introduced := a; report.Fixed := b |})
      /\ (forall b,
             spec.groupText b = true ->
             cve5.Introduced cvr = ("< " ++ b)%string ->
             cve5.toVersionRange cvr defaultStatus
             = Some {| report.Introduced := ""; report.Fixed := b |}))
  /\ (forall fixed lessThanOrEqual status versionType defaultStatus,
         cve5.toVersionRange
           {| cve5.Introduced := ">= 1.0.0, < 2.0.0"; cve5.Fixed := fixed;
              cve5.LessThanOrEqual := lessThanOrEqual;
              cve5.Status := status; cve5.VersionType := versionType |}
           defaultStatus
         = Some {| report.Introduced := "1.0.0"; report.Fixed := "2.0.0" |}
         /\ cve5.toVersionRange
              {| cve5.Introduced := "< 3.0.0"; cve5.Fixed := fixed;
                 cve5.LessThanOrEqual := lessThanOrEqual;
                 cve5.Status := status; cve5.VersionType := versionType |}
              defaultStatus
            = Some {| report.Introduced := ""; report.Fixed := "3.0.0" |}).
Proof.
  assert (Hfirst : forall cvr ds whole a b,
             regexp.FindStringSubmatch cve5.introducedFixedRE
               (cve5.Introduced cvr) = [whole; a; b] ->
             cve5.toVersionRange cvr ds
             = Some {| report.Introduced := a; report.Fixed := b |}).
  { intros cvr ds whole a b H. unfold cve5.toVersionRange. now rewrite H. }
  assert (Hsecond : forall cvr ds whole b,
             regexp.FindStringSubmatch cve5.fixedRE (cve5.Introduced cvr)
             = [whole; b] ->
             cve5.toVersionRange cvr ds
             = Some {| report.Introduced := ""; report.Fixed := b |}).
  { intros cvr ds whole b H. unfold cve5.toVersionRange.
    rewrite second_pattern_excludes_first by (rewrite H; discriminate).
    now rewrite H. }
  split; [|split; reflexivity].
  intros cvr ds. split; [apply Hfirst|]. split; [apply Hsecond|]. split.
  - intros a b Ha Hb Hc Hi.
    apply (Hfirst cvr ds (cve5.Introduced cvr)).
    rewrite Hi. now apply find_first_pattern.
  - intros b Hb Hi.
    apply (Hsecond cvr ds (cve5.Introduced cvr)).
    rewrite Hi. now apply find_second_pattern.
Qed.

Lemma toVersionRange_repair_witness :
  cve5.toVersionRange
    {| cve5.Introduced := ">= 1.4.0, < 1.4.2"; cve5.Fixed := "9";
       cve5.LessThanOrEqual := "1.4.1"; cve5.Status := "unknown";
       cve5.VersionType := "custom" |} "affected"
  = Some {| report.Introduced := "1.4.0"; report.Fixed := "1.4.2" |}.
Proof.
  apply (proj1 (proj2 (proj2 (proj1 toVersionRange_repair
           {| cve5.Introduced := ">= 1.4.0, < 1.4.2"; cve5.Fixed := "9";
              cve5.LessThanOrEqual := "1.4.1"; cve5.Status := "unknown";
              cve5.VersionType := "custom" |} "affected"))) "1.4.0" "1.4.2");
    reflexivity.
Defined.

(** ** The Range Recoverer *)

Lemma convertStep_eq (ds : string)
  (vs : list report.VersionRange) (uvs : list report.UnsupportedVersion)
  (vr : cve5.VersionRange) :
  cve5.convertStep ds (vs, uvs) vr
  = (vs ++ spec.recoveredOne ds vr, uvs ++ spec.notedOne ds vr).
Proof.
  unfold cve5.convertStep, spec.recoveredOne, spec.notedOne.
  destruct (String.eqb (cve5.Introduced vr) "n/a");
    [now rewrite !app_nil_r|].
  destruct (cve5.toVersionRange vr ds); now rewrite app_nil_r.
Qed.

Lemma fold_convertStep (ds : string) (vrs : list cve5.VersionRange) :
  forall vs uvs,
    fold_left (cve5.convertStep ds) vrs (vs, uvs)
    = (vs ++ flat_map (spec.recoveredOne ds) vrs,
       uvs ++ flat_map (spec.notedOne ds) vrs).
Proof.
  induction vrs as [|vr rest IH]; intros vs uvs; cbn [fold_left flat_map].
  - now rewrite !app_nil_r.
  - now rewrite convertStep_eq, IH, <- !app_assoc.
Qed.

Lemma convertVersions_eq (vrs : list cve5.VersionRange) (ds : string) :
  cve5.convertVersions vrs ds
  = (flat_map (spec.recoveredOne ds) vrs, flat_map (spec.notedOne ds) vrs).
Proof. unfold cve5.convertVersions. now rewrite fold_convertStep. Qed.

Lemma one_outcome (ds : string) (vr : cve5.VersionRange) :
  length (spec.recoveredOne ds vr) + length (spec.notedOne ds vr)
  + (if spec.notApplicable vr then 1 else 0) = 1.
Proof.
  unfold spec.recoveredOne, spec.notedOne, spec.notApplicable.
  destruct (String.eqb (cve5.Introduced vr) "n/a"); [reflexivity|].
  destruct (cve5.toVersionRange vr ds); reflexivity.
Qed.

Lemma outcomes_count (ds : string) (vrs : list cve5.VersionRange) :
  length (flat_map (spec.recoveredOne ds) vrs)
  + length (flat_map (spec.notedOne ds) vrs)
  + length (filter spec.notApplicable vrs)
  = length vrs.
Proof.
  induction vrs as [|vr rest IH]; [reflexivity|].
  cbn [flat_map filter length]. rewrite !length_app.
  pose proof (one_outcome ds vr) as H1.
  destruct (spec.notApplicable vr); cbn [length]; lia.
Qed.

(** C6, as amended: the Recoverer is total (it has no error result) and
    drops nothing but the "n/a" entries: converted ranges plus notes number
    the input ranges minus those whose introduced field is "n/a"; and an
    entry with lessThanOrEqual set appears as a note whenever its introduced
    field is not "n/a" and matches neither repair pattern. *)
Theorem convertVersions_degrades
  (vrs : list cve5.VersionRange) (defaultStatus : string) :
  length (fst (cve5.convertVersions vrs defaultStatus))
  + length (snd (cve5.convertVersions vrs defaultStatus))
  = length vrs - length (filter spec.notApplicable vrs)
  /\ (forall vr,
         In vr vrs ->
         cve5.LessThanOrEqual vr <> "" ->
         cve5.Introduced vr <> "n/a" ->
         spec.noRepair vr ->
         In (cve5.toUnsupported vr defaultStatus)
            (snd (cve5.convertVersions vrs defaultStatus))).
Proof.
  rewrite convertVersions_eq. cbn [fst snd]. split.
  - pose proof (outcomes_count defaultStatus vrs). lia.
  - intros vr Hin Hlte Hna Hno. apply in_flat_map. exists vr. split; [exact Hin|].
    unfold spec.notedOne. apply String.eqb_neq in Hna. rewrite Hna.
    rewrite (toVersionRange_direct vr defaultStatus Hno).
    apply nonEmpty_true in Hlte. rewrite Hlte.
    rewrite orb_true_r. cbn [orb]. now left.
Qed.

Lemma convertVersions_degrades_witness :
  In (cve5.toUnsupported
        {| cve5.Introduced := "1.0.0"; cve5.Fixed := "";
           cve5.LessThanOrEqual := "1.5.0"; cve5.Status := "affected";
           cve5.VersionType := "semver" |} "unaffected")
     (snd (cve5.convertVersions
             [ {| cve5.Introduced := "n/a"; cve5.Fixed := "";
                  cve5.LessThanOrEqual := ""; cve5.Status := "affected";
                  cve5.VersionType := "semver" |};
               {| cve5.Introduced := "1.0.0"; cve5.Fixed := "";
                  cve5.LessThanOrEqual := "1.5.0"; cve5.Status := "affected";
                  cve5.VersionType := "semver" |} ] "unaffected")).
Proof.
  apply (proj2 (convertVersions_degrades _ _)).
  - simpl. now right; left.
  - simpl. discriminate.
  - simpl. discriminate.
  - split; reflexivity.
Defined.

(** C6, as stated, fails: an entry with lessThanOrEqual set whose introduced
    field matches a repair pattern is converted and no note is written for
    it; one whose introduced field is "n/a" is skipped. *)
Lemma lessThanOrEqual_entry_not_noted :
  (let vr := {| cve5.Introduced := "< 3.0.0"; cve5.Fixed := "";
                cve5.LessThanOrEqual := "2.9.0"; cve5.Status := "affected";
                cve5.VersionType := "semver" |} in
   cve5.LessThanOrEqual vr <> ""
   /\ cve5.convertVersions [vr] "unaffected"
      = ([ {| report.Introduced := ""; report.Fixed := "3.0.0" |} ], [])
   /\ ~ In (cve5.toUnsupported vr "unaffected")
           (snd (cve5.convertVersions [vr] "unaffected")))
  /\ (let vr := {| cve5.Introduced := "n/a"; cve5.Fixed := "";
                   cve5.LessThanOrEqual := "2.9.0"; cve5.Status := "affected";
                   cve5.VersionType := "semver" |} in
      cve5.LessThanOrEqual vr <> ""
      /\ cve5.convertVersions [vr] "unaffected" = ([], [])
      /\ ~ In (cve5.toUnsupported vr "unaffected")
              (snd (cve5.convertVersions [vr] "unaffected"))).
Proof.
  split; cbv zeta.
  - split; [cbn; discriminate|]. split; [reflexivity|]. intros H; exact H.
  - split; [cbn; discriminate|]. split; [reflexivity|]. intros H; exact H.
Qed.

(** ** The text of a note *)

Lemma append_empty_r (s : string) : (s ++ "")%string = s.
Proof. induction s as [|c s IH]; simpl; [reflexivity|now rewrite IH]. Qed.

(** C7 on the code: the note reads "<status> from <introduced> before
    <fixed>" when fixed is set and "<status> at <introduced>" when there is
    no upper bound, with " (default: <defaultStatus>)" appended when the
    default status is not empty; but when fixed is empty and lessThanOrEqual
    is set, the text printed after " to " is the (empty) fixed field, not
    lessThanOrEqual. *)
Theorem toUnsupported_text (cvr : cve5.VersionRange) (defaultStatus : string) :
  let suffix :=
    if cve5.nonEmpty defaultStatus
    then (" (default: " ++ defaultStatus ++ ")")%string else ""%string in
  (cve5.Fixed cvr <> "" ->
   report.Version (cve5.toUnsupported cvr defaultStatus)
   = ((cve5.Status cvr ++ " from " ++ cve5.Introduced cvr
       ++ " before " ++ cve5.Fixed cvr) ++ suffix)%string)
  /\ (cve5.Fixed cvr = "" -> cve5.LessThanOrEqual cvr <> "" ->
      report.Version (cve5.toUnsupported cvr defaultStatus)
      = ((cve5.Status cvr ++ " from " ++ cve5.Introduced cvr ++ " to ")
         ++ suffix)%string)
  /\ (cve5.Fixed cvr = "" -> cve5.LessThanOrEqual cvr = "" ->
      report.Version (cve5.toUnsupported cvr defaultStatus)
      = ((cve5.Status cvr ++ " at " ++ cve5.Introduced cvr) ++ suffix)%string)
  /\ report.Type_ (cve5.toUnsupported cvr defaultStatus) = "cve_version_range".
Proof.
  unfold cve5.toUnsupported. cbn [report.Version report.Type_].
  split; [|split; [|split; [|reflexivity]]].
  - intros Hf. apply nonEmpty_true in Hf. rewrite Hf.
    destruct (cve5.nonEmpty defaultStatus);
      [reflexivity|now rewrite append_empty_r].
  - intros Hf Hl. apply nonEmpty_true in Hl. rewrite Hf, Hl.
    cbn [cve5.nonEmpty String.eqb negb]. rewrite append_empty_r.
    destruct (cve5.nonEmpty defaultStatus);
      [reflexivity|now rewrite append_empty_r].
  - intros Hf Hl. rewrite Hf, Hl. cbn [cve5.nonEmpty String.eqb negb].
    destruct (cve5.nonEmpty defaultStatus);
      [reflexivity|now rewrite append_empty_r].
Qed.

Lemma toUnsupported_text_witness :
  report.Version
    (cve5.toUnsupported
       {| cve5.Introduced := "1.0.0"; cve5.Fixed := "";
          cve5.LessThanOrEqual := "1.5.0"; cve5.Status := "affected";
          cve5.VersionType := "semver" |} "unaffected")
  = "affected from 1.0.0 to  (default: unaffected)".
Proof.
  apply (proj1 (proj2 (toUnsupported_text
           {| cve5.Introduced := "1.0.0"; cve5.Fixed := "";
              cve5.LessThanOrEqual := "1.5.0"; cve5.Status := "affected";
              cve5.VersionType := "semver" |} "unaffected"))).
  - reflexivity.
  - simpl. discriminate.
Defined.

(** The inclusive upper bound is missing from the note. *)
Lemma toUnsupported_drops_lessThanOrEqual :
  report.Version
    (cve5.toUnsupported
       {| cve5.Introduced := "1.0.0"; cve5.Fixed := "";
          cve5.LessThanOrEqual := "1.5.0"; cve5.Status := "affected";
          cve5.VersionType := "semver" |} "unaffected")
  <> "affected from 1.0.0 to 1.5.0 (default: unaffected)".
Proof. cbn. discriminate. Qed.

(** ** Round trip: Recoverer after Normalizer *)

Lemma isDigit_not_special (c : ascii) :
  semver.isDigit c = true -> c <> ">"%char /\ c <> "<"%char /\ c <> "n"%char.
Proof.
  destruct c as [[] [] [] [] [] [] [] []]; intros H;
    try discriminate H; repeat split; discriminate.
Qed.

Lemma valid_first_digit (s : string) :
  version.IsValid s = true ->
  exists c s', s = String c s' /\ semver.isDigit c = true.
Proof.
  unfold version.IsValid. cbn [append semver.IsValid].
  unfold semver.parseNumbers, semver.parseInt.
  destruct s as [|c s']; [discriminate|].
  destruct (semver.isDigit c) eqn:Hd; [|discriminate].
  intros _. eauto.
Qed.

(** A valid version matches no repair pattern and is not the "n/a" token. *)
Lemma valid_not_repaired (s : string) :
  version.IsValid s = true ->
  regexp.FindStringSubmatch cve5.introducedFixedRE s = []
  /\ regexp.FindStringSubmatch cve5.fixedRE s = []
  /\ String.eqb s "n/a" = false.
Proof.
  intros H. apply valid_first_digit in H as (c & s' & -> & Hd).
  apply isDigit_not_special in Hd as (Hgt & Hlt & Hn).
  unfold regexp.FindStringSubmatch, cve5.introducedFixedRE, cve5.fixedRE.
  rewrite !run_Lit_step. cbn [String.prefix].
  destruct (ascii_dec ">" c) as [E|_]; [now subst c|].
  destruct (ascii_dec "<" c) as [E|_]; [now subst c|].
  repeat split. apply String.eqb_neq. intros E. inversion E. now subst c.
Qed.

Lemma roundTrips_one (vr : report.VersionRange) :
  spec.roundTrips vr = true ->
  spec.recoveredOne cve5.StatusUnaffected (spec.affectedRange vr) = [vr]
  /\ spec.notedOne cve5.StatusUnaffected (spec.affectedRange vr) = [].
Proof.
  unfold spec.roundTrips. destruct vr as [i f]. cbn [report.Introduced report.Fixed].
  intros H. apply andb_true_iff in H as [Hf Hi].
  remember (if cve5.nonEmpty i then i else "0") as i' eqn:Ei'.
  assert (Haff : spec.affectedRange {| report.Introduced := i; report.Fixed := f |}
                 = {| cve5.Introduced := i';
                      cve5.Fixed := f; cve5.LessThanOrEqual := "";
                      cve5.Status := cve5.StatusAffected;
                      cve5.VersionType := cve5.typeSemver |})
    by (subst i'; reflexivity).
  rewrite Haff. clear Haff.
  assert (Hi' : version.IsValid i' = true
                /\ (if String.eqb i' "0" then "" else i') = i).
  { subst i'. apply orb_true_iff in Hi as [He|Hv].
    - apply String.eqb_eq in He. subst i. split; reflexivity.
    - apply andb_true_iff in Hv as [Hv Hz].
      assert (Hne : cve5.nonEmpty i = true).
      { apply nonEmpty_true. intros ->. discriminate Hv. }
      rewrite Hne. split; [exact Hv|].
      apply negb_true_iff in Hz. now rewrite Hz. }
  destruct Hi' as [Hvalid Hback].
  destruct (valid_not_repaired i' Hvalid) as (H1 & H2 & Hna).
  unfold spec.recoveredOne, spec.notedOne.
  rewrite toVersionRange_direct by (split; [exact H1|exact H2]).
  cbn [cve5.Introduced cve5.Fixed cve5.LessThanOrEqual cve5.Status
       cve5.VersionType].
  rewrite Hvalid, Hf, Hback, Hna, !String.eqb_refl. split; reflexivity.
Qed.

Lemma roundTrips_last_fixed (versions : list report.VersionRange) :
  versions <> [] ->
  forallb spec.roundTrips versions = true ->
  String.eqb (report.Fixed (cve5.lastRange versions)) "" = false.
Proof.
  intros Hne Hall.
  assert (Hin : In (cve5.lastRange versions) versions).
  { unfold cve5.lastRange. destruct versions as [|v rest]; [congruence|].
    destruct (exists_last (l := v :: rest)) as (l' & x & ->); [discriminate|].
    rewrite last_last. apply in_or_app. right. now left. }
  rewrite forallb_forall in Hall. specialize (Hall _ Hin).
  unfold spec.roundTrips in Hall. apply andb_true_iff in Hall as [Hf _].
  apply String.eqb_neq. intros E. rewrite E in Hf. discriminate Hf.
Qed.

Lemma roundTrips_all (l : list report.VersionRange) :
  forallb spec.roundTrips l = true ->
  flat_map (spec.recoveredOne cve5.StatusUnaffected) (map spec.affectedRange l)
  = l
  /\ flat_map (spec.notedOne cve5.StatusUnaffected) (map spec.affectedRange l)
     = [].
Proof.
  induction l as [|vr l IH]; intros Hall; [split; reflexivity|].
  cbn [forallb] in Hall. apply andb_true_iff in Hall as [Hvr Hl].
  destruct (IH Hl) as [IH1 IH2]. cbn [map flat_map].
  destruct (roundTrips_one vr Hvr) as [-> ->].
  rewrite IH1, IH2. split; reflexivity.
Qed.

(** C1, as amended: for every sequence of internal ranges in which each
    fixed bound is a valid version and each introduced bound is empty or a
    valid version other than the token "0", the Recoverer run on the output
    of the Normalizer yields exactly the original sequence and no note. *)
Theorem recover_normalize_roundtrip (versions : list report.VersionRange) :
  forallb spec.roundTrips versions = true ->
  cve5.convertVersions (fst (cve5.versionRangeToVersionRange versions))
                       (snd (cve5.versionRangeToVersionRange versions))
  = (versions, []).
Proof.
  intros Hall. rewrite versionRangeToVersionRange_eq.
  destruct versions as [|v0 rest]; [reflexivity|].
  rewrite roundTrips_last_fixed by (assumption || discriminate).
  cbn [fst snd]. rewrite convertVersions_eq.
  now destruct (roundTrips_all (v0 :: rest) Hall) as [-> ->].
Qed.

Lemma recover_normalize_roundtrip_witness :
  cve5.convertVersions
    (fst (cve5.versionRangeToVersionRange
            [ {| report.Introduced := ""; report.Fixed := "1.2.0" |};
              {| report.Introduced := "1.3.0"; report.Fixed := "1.3.5" |} ]))
    (snd (cve5.versionRangeToVersionRange
            [ {| report.Introduced := ""; report.Fixed := "1.2.0" |};
              {| report.Introduced := "1.3.0"; report.Fixed := "1.3.5" |} ]))
  = ([ {| report.Introduced := ""; report.Fixed := "1.2.0" |};
       {| report.Introduced := "1.3.0"; report.Fixed := "1.3.5" |} ], []).
Proof.
  apply recover_normalize_roundtrip. reflexivity.
Defined.

(** C1, as stated, fails at two inputs that end in a non-empty fixed bound
    and hold valid versions only.  The token "0" is a valid version, and an
    internal range introduced at "0" comes back with an empty introduced
    bound.  And when a bound may be empty, a range with an empty fixed bound
    before the last one is degraded to a note. *)
Lemma roundtrip_fails_as_stated :
  (let versions :=
     [ {| report.Introduced := "0"; report.Fixed := "1.0.0" |} ] in
   versions <> []
   /\ forallb spec.bothValid versions = true
   /\ forallb spec.validOrEmpty versions = true
   /\ report.Fixed (cve5.lastRange versions) <> ""
   /\ cve5.convertVersions
        (fst (cve5.versionRangeToVersionRange versions))
        (snd (cve5.versionRangeToVersionRange versions))
      = ([ {| report.Introduced := ""; report.Fixed := "1.0.0" |} ], [])
   /\ cve5.convertVersions
        (fst (cve5.versionRangeToVersionRange versions))
        (snd (cve5.versionRangeToVersionRange versions))
      <> (versions, []))
  /\ (let versions :=
        [ {| report.Introduced := "1.0.0"; report.Fixed := "" |};
          {| report.Introduced := "1.5.0"; report.Fixed := "2.0.0" |} ] in
      versions <> []
      /\ forallb spec.validOrEmpty versions = true
      /\ report.Fixed (cve5.lastRange versions) <> ""
      /\ cve5.convertVersions
           (fst (cve5.versionRangeToVersionRange versions))
           (snd (cve5.versionRangeToVersionRange versions))
         = ([ {| report.Introduced := "1.5.0"; report.Fixed := "2.0.0" |} ],
            [ {| report.Version := "affected at 1.0.0 (default: unaffected)";
                 report.Type_ := "cve_version_range" |} ])
      /\ cve5.convertVersions
           (fst (cve5.versionRangeToVersionRange versions))
           (snd (cve5.versionRangeToVersionRange versions))
         <> (versions, [])).
Proof.
  split; cbv zeta.
  - split; [discriminate|]. split; [reflexivity|]. split; [reflexivity|].
    split; [cbn; discriminate|]. split; [reflexivity|].
    change (cve5.convertVersions _ _)
      with ([ {| report.Introduced := ""; report.Fixed := "1.0.0" |} ],
            @nil report.UnsupportedVersion).
    discriminate.
  - split; [discriminate|]. split; [reflexivity|].
    split; [cbn; discriminate|]. split; [reflexivity|].
    change (cve5.convertVersions _ _)
      with ([ {| report.Introduced := "1.5.0"; report.Fixed := "2.0.0" |} ],
            [ {| report.Version := "affected at 1.0.0 (default: unaffected)";
                 report.Type_ := "cve_version_range" |} ]).
    discriminate.
Qed.

(** ** The Path Resolver *)

Lemma length_append (a b : string) :
  String.length (a ++ b) = String.length a + String.length b.
Proof. induction a as [|c a IH]; simpl; [reflexivity|now rewrite IH]. Qed.

Lemma substring_whole (s : string) : substring 0 (String.length s) s = s.
Proof. induction s as [|c s IH]; simpl; [reflexivity|now rewrite IH]. Qed.

Lemma substring_after (pre suf : string) :
  substring (String.length pre) (String.length suf) (pre ++ suf) = suf.
Proof.
  induction pre as [|c pre IH]; simpl; [apply substring_whole|exact IH].
Qed.

Lemma substring_split (s : string) :
  forall n, n <= String.length s ->
    (substring 0 n s ++ substring n (String.length s - n) s)%string = s.
Proof.
  induction s as [|c s IH]; intros n Hn; simpl in Hn.
  - assert (n = 0) by lia. subst n. reflexivity.
  - destruct n as [|n].
    + simpl. now rewrite substring_whole.
    + simpl. rewrite IH by lia. reflexivity.
Qed.

(** [strings.HasSuffix] holds exactly of the trailing parts of a text. *)
Lemma HasSuffix_iff (s suffix : string) :
  strings.HasSuffix s suffix = true <-> exists pre, s = (pre ++ suffix)%string.
Proof.
  unfold strings.HasSuffix. rewrite andb_true_iff, Nat.leb_le, String.eqb_eq.
  split.
  - intros [Hle Hsub].
    exists (substring 0 (String.length s - String.length suffix) s).
    pose proof (substring_split s (String.length s - String.length suffix))
      as Hsplit.
    replace (String.length s - (String.length s - String.length suffix))
      with (String.length suffix) in Hsplit by lia.
    rewrite Hsub in Hsplit. symmetry. apply Hsplit. lia.
  - intros [pre ->]. rewrite length_append. split; [lia|].
    replace (String.length pre + String.length suffix - String.length suffix)
      with (String.length pre) by lia.
    apply substring_after.
Qed.

Lemma HasSuffix_refl (s : string) : strings.HasSuffix s s = true.
Proof. apply HasSuffix_iff. now exists ""%string. Qed.

Lemma isSet_iff (s : string) : cve5.isSet s = true <-> s <> "" /\ s <> "n/a".
Proof.
  unfold cve5.isSet.
  rewrite andb_true_iff, nonEmpty_true, negb_true_iff, String.eqb_neq.
  tauto.
Qed.

Section PathResolverProperties.

Variable stdlib_Contains : string -> bool.
Variable stdlib_ToolchainModulePath : string.
Variable stdlib_ModulePath : string.

Local Abbreviation resolved a hint :=
  (spec.packagePaths
     (cve5.affectedToModule stdlib_Contains stdlib_ToolchainModulePath
                            stdlib_ModulePath a hint)).

Lemma resolved_eq (a : cve5.Affected) (hint : string) :
  resolved a hint
  = [ if strings.HasSuffix hint (spec.preferredPath a hint) then hint
      else spec.preferredPath a hint ].
Proof.
  unfold spec.packagePaths, cve5.affectedToModule, spec.preferredPath.
  destruct (cve5.convertVersions _ _). reflexivity.
Qed.

(** C8: the package path is the package name when that is set and not
    "n/a", else the product, else the vendor (each under the same test),
    else the module path hint; and whenever that path is a trailing part of
    the hint the package path is the hint itself.  So "golang.org/x/foo/bar"
    resolved against the hint "golang.org/x/foo/bar" gives the hint, and an
    entry with empty package name, product and vendor gives the hint. *)
Theorem affectedToModule_package_path (a : cve5.Affected) (hint : string) :
  (cve5.isSet (cve5.PackageName a) = true ->
   spec.preferredPath a hint = cve5.PackageName a)
  /\ (cve5.isSet (cve5.PackageName a) = false ->
      cve5.isSet (cve5.Product a) = true ->
      spec.preferredPath a hint = cve5.Product a)
  /\ (cve5.isSet (cve5.PackageName a) = false ->
      cve5.isSet (cve5.Product a) = false ->
      cve5.isSet (cve5.Vendor a) = true ->
      spec.preferredPath a hint = cve5.Vendor a)
  /\ (cve5.isSet (cve5.PackageName a) = false ->
      cve5.isSet (cve5.Product a) = false ->
      cve5.isSet (cve5.Vendor a) = false ->
      spec.preferredPath a hint = hint)
  /\ ((exists pre, hint = (pre ++ spec.preferredPath a hint)%string) ->
      resolved a hint = [hint])
  /\ (~ (exists pre, hint = (pre ++ spec.preferredPath a hint)%string) ->
      resolved a hint = [spec.preferredPath a hint])
  /\ (cve5.PackageName a = "golang.org/x/foo/bar" ->
      hint = "golang.org/x/foo/bar" ->
      resolved a hint = [hint])
  /\ (cve5.PackageName a = "" -> cve5.Product a = "" -> cve5.Vendor a = "" ->
      resolved a hint = [hint])
  /\ (forall s, cve5.isSet s = true <-> s <> "" /\ s <> "n/a").
Proof.
  rewrite resolved_eq.
  split; [unfold spec.preferredPath; now intros ->|].
  split; [unfold spec.preferredPath; now intros -> ->|].
  split; [unfold spec.preferredPath; now intros -> -> ->|].
  split; [unfold spec.preferredPath; now intros -> -> ->|].
  split; [|split; [|split; [|split; [|apply isSet_iff]]]].
  - intros H. apply HasSuffix_iff in H. now rewrite H.
  - intros H. destruct (strings.HasSuffix _ _) eqn:E; [|reflexivity].
    apply HasSuffix_iff in E. contradiction.
  - intros Hp ->. unfold spec.preferredPath. rewrite Hp. reflexivity.
  - intros Hp Hq Hv. unfold spec.preferredPath. rewrite Hp, Hq, Hv.
    cbn [cve5.isSet cve5.nonEmpty String.eqb negb andb].
    now rewrite HasSuffix_refl.
Qed.

End PathResolverProperties.

Lemma affectedToModule_package_path_witness :
  spec.packagePaths
    (cve5.affectedToModule (fun _ => false) "cmd" "std"
       {| cve5.Vendor := "golang.org/x/foo"; cve5.Product := "n/a";
          cve5.CollectionURL := ""; cve5.PackageName := "foo/bar";
          cve5.Versions := []; cve5.Platforms := [];
          cve5.ProgramRoutines := []; cve5.DefaultStatus := "" |}
       "golang.org/x/foo/bar")
  = ["golang.org/x/foo/bar"].
Proof.
  apply (proj1 (proj2 (proj2 (proj2 (proj2
           (affectedToModule_package_path (fun _ => false) "cmd" "std"
              {| cve5.Vendor := "golang.org/x/foo"; cve5.Product := "n/a";
                 cve5.CollectionURL := ""; cve5.PackageName := "foo/bar";
                 cve5.Versions := []; cve5.Platforms := [];
                 cve5.ProgramRoutines := []; cve5.DefaultStatus := "" |}
              "golang.org/x/foo/bar")))))).
  exists "golang.org/x/"%string. reflexivity.
Defined.

(** ** The Record Assembler *)

Section RecordAssemblerProperties.

Variable report_RemoveNewlines : string -> string.
Variable report_Vendor : string -> string.
Variable report_GoAdvisory : string -> string.
Variable report_AllSymbols : report.Package -> list string.

Local Abbreviation fromReport :=
  (cve5.FromReport report_RemoveNewlines report_Vendor report_GoAdvisory
                   report_AllSymbols).

(** C9: [FromReport] returns an error iff the report has no CVE metadata
    section, or its CVE identifier is empty, or its CWE is empty; an error
    comes with no record and is wrapped under the report identifier;
    without error a record is returned. *)
Theorem FromReport_error (r : report.Report) :
  (snd (fromReport r) <> None
   <-> (report.CVEMetadata r = None
        \/ exists meta, report.CVEMetadata r = Some meta
                        /\ (report.CVEMeta_ID meta = ""
                            \/ report.CVEMeta_CWE meta = "")))
  /\ (forall e, snd (fromReport r) = Some e ->
        fst (fromReport r) = None
        /\ exists cause,
             e = derrors.Wrapped "FromReport(%q)" [report.ID r] cause)
  /\ (snd (fromReport r) = None ->
      exists record, fst (fromReport r) = Some record
                     /\ exists meta, report.CVEMetadata r = Some meta
                          /\ cve5.ID (cve5.Metadata_ record)
                             = report.CVEMeta_ID meta).
Proof.
  unfold cve5.FromReport, cve5.fromReportBody.
  destruct (report.CVEMetadata r) as [meta|].
  - destruct (String.eqb_spec (report.CVEMeta_ID meta) "") as [Hid|Hid].
    + cbn [fst snd derrors.Wrap]. split; [|split].
      * split; [intros _; right; eauto|discriminate].
      * intros e [= <-]. eauto.
      * discriminate.
    + destruct (String.eqb_spec (report.CVEMeta_CWE meta) "") as [Hcwe|Hcwe].
      * cbn [fst snd derrors.Wrap]. split; [|split].
        -- split; [intros _; right; eauto|discriminate].
        -- intros e [= <-]. eauto.
        -- discriminate.
      * cbn [fst snd derrors.Wrap]. split; [|split].
        -- split; [congruence|].
           intros [H|(m & [= <-] & [H|H])]; [discriminate|contradiction..].
        -- discriminate.
        -- intros _. eexists. split; [reflexivity|]. eauto.
  - cbn [fst snd derrors.Wrap]. split; [|split].
    + split; [intros _; now left|discriminate].
    + intros e [= <-]. eauto.
    + discriminate.
Qed.

End RecordAssemblerProperties.

(** * Further properties of the translation *)

(** ** What the Normalizer writes *)

Lemma windows_Introduced (l : list report.VersionRange) :
  forall start w,
    In w (spec.windows start l) ->
    cve5.Introduced w = "0"
    \/ (start <> "" /\ cve5.Introduced w = start)
    \/ exists vr, In vr l /\ report.Fixed vr <> ""
                  /\ cve5.Introduced w = report.Fixed vr.
Proof.
  induction l as [|vr rest IH]; intros start w Hin; [contradiction|].
  cbn [spec.windows] in Hin. apply in_app_or in Hin as [Hin|Hin].
  - destruct (spec.hasIntroduced vr); [|contradiction].
    destruct Hin as [<-|[]]. cbn [spec.unaffectedRange cve5.Introduced].
    destruct (String.eqb_spec start ""); [now left|right; left; now split].
  - apply IH in Hin as [H|[[Hne H]|(vr' & Hin' & Hf & H)]].
    + now left.
    + unfold spec.carry in Hne, H.
      destruct (cve5.nonEmpty (report.Fixed vr)) eqn:Hf.
      * right; right. exists vr. apply nonEmpty_true in Hf.
        split; [now left|]. now split.
      * destruct (cve5.nonEmpty (report.Introduced vr));
          [now elim Hne|]. right; left. now split.
    + right; right. exists vr'. split; [now right|]. now split.
Qed.

Lemma windows_Introduced_nonempty (l : list report.VersionRange) :
  forall start w, In w (spec.windows start l) -> cve5.Introduced w <> "".
Proof.
  intros start w Hin.
  apply windows_Introduced in Hin as [H|[[Hne H]|(vr & _ & Hf & H)]];
    rewrite H; [discriminate|assumption..].
Qed.

(** X1: whatever the input, every external range the Normalizer writes has
    a non-empty introduced bound (the token "0" stands for an empty one), no
    lessThanOrEqual bound, the semver version type, and the status opposite
    to the default status returned with it. *)
Theorem normalizer_output_invariant (versions : list report.VersionRange) :
  Forall (fun x =>
            cve5.Introduced x <> ""
            /\ cve5.LessThanOrEqual x = ""
            /\ cve5.VersionType x = cve5.typeSemver
            /\ ((cve5.Status x = cve5.StatusUnaffected
                 /\ snd (cve5.versionRangeToVersionRange versions)
                    = cve5.StatusAffected)
                \/ (cve5.Status x = cve5.StatusAffected
                    /\ snd (cve5.versionRangeToVersionRange versions)
                       = cve5.StatusUnaffected)))
         (fst (cve5.versionRangeToVersionRange versions)).
Proof.
  rewrite versionRangeToVersionRange_eq.
  destruct versions as [|v0 rest]; [constructor|].
  destruct (String.eqb _ _); cbn [fst snd]; apply Forall_forall; intros x Hx.
  - split; [now apply windows_Introduced_nonempty in Hx|].
    pose proof (windows_unaffected (v0 :: rest) "") as Hall.
    rewrite Forall_forall in Hall. destruct (Hall x Hx) as (Hs & Ht & Hl).
    auto.
  - apply in_map_iff in Hx as [vr [<- _]].
    unfold spec.affectedRange.
    cbn [cve5.Introduced cve5.LessThanOrEqual cve5.VersionType cve5.Status].
    split; [|auto].
    destruct (cve5.nonEmpty (report.Introduced vr)) eqn:Hi;
      [now apply nonEmpty_true|discriminate].
Qed.

(** ** The Recoverer, range by range *)

(** X2: the Recoverer treats each external range on its own: converting a
    concatenation gives the concatenation of the converted ranges and the
    concatenation of the notes, each in the order of the input. *)
Theorem convertVersions_concatenation
  (l1 l2 : list cve5.VersionRange) (defaultStatus : string) :
  cve5.convertVersions (l1 ++ l2) defaultStatus
  = (fst (cve5.convertVersions l1 defaultStatus)
     ++ fst (cve5.convertVersions l2 defaultStatus),
     snd (cve5.convertVersions l1 defaultStatus)
     ++ snd (cve5.convertVersions l2 defaultStatus)).
Proof.
  rewrite !convertVersions_eq. cbn [fst snd].
  now rewrite !flat_map_app.
Qed.

(** What a match tells about the text: a literal is a prefix of it. *)
Lemma prefix_split (text s : string) :
  String.prefix text s = true ->
  s = (text ++ regexp.skip (String.length text) s)%string.
Proof.
  revert s. induction text as [|c text IH]; intros s H.
  - destruct s; reflexivity.
  - destruct s as [|c' s]; [discriminate|]. cbn [String.prefix] in H.
    destruct (ascii_dec c c') as [<-|]; [|discriminate].
    cbn [String.length regexp.skip append]. now rewrite <- (IH s H).
Qed.

Lemma run_Lit_inv (text : string) (re : regexp.Regexp) (s : string)
  (gs : list string) :
  regexp.run (regexp.Lit text :: re) s = Some gs ->
  exists s', s = (text ++ s')%string /\ regexp.run re s' = Some gs.
Proof.
  rewrite run_Lit_step. destruct (String.prefix text s) eqn:Hp; [|discriminate].
  intros H. exists (regexp.skip (String.length text) s).
  split; [now apply prefix_split|exact H].
Qed.

(** A group holds a non-empty text without newline, followed by a text the
    rest of the pattern matches. *)
Lemma run_DotPlus_inv (re : regexp.Regexp) (s : string) :
  forall gs,
    regexp.run (regexp.DotPlus :: re) s = Some gs ->
    exists a s' gs',
      gs = a :: gs' /\ s = (a ++ s')%string /\ spec.groupText a = true
      /\ regexp.run re s' = Some gs'.
Proof.
  induction s as [|c s IH]; intros gs H; [discriminate|].
  rewrite run_DotPlus_step in H.
  destruct (Ascii.eqb c newline) eqn:Hc; [discriminate|].
  assert (Hstop : forall gs',
             regexp.run re s = Some gs' ->
             exists a s' gs'',
               String c "" :: gs' = a :: gs''
               /\ String c s = (a ++ s')%string
               /\ spec.groupText a = true /\ regexp.run re s' = Some gs'').
  { intros gs' Hre. exists (String c ""), s, gs'.
    repeat split; try assumption.
    unfold spec.groupText. cbn. now rewrite Hc. }
  destruct (regexp.run (regexp.DotPlus :: re) s) as [[|g gs0]|] eqn:Hplus.
  - destruct (regexp.run re s) as [gs'|]; [|discriminate].
    inversion H. now apply Hstop.
  - inversion H; subst gs.
    destruct (IH _ eq_refl) as (a & s' & gs' & Hg & Hs & Ha & Hre).
    inversion Hg; subst g gs0.
    exists (String c a), s', gs'. repeat split; try assumption.
    + now rewrite Hs.
    + unfold spec.groupText in *. cbn [cve5.nonEmpty String.eqb negb andb].
      cbn [spec.allChars]. rewrite Hc. cbn [negb andb].
      apply andb_true_iff in Ha as [_ Ha]. exact Ha.
  - destruct (regexp.run re s) as [gs'|]; [|discriminate].
    inversion H. now apply Hstop.
Qed.

Lemma run_end_inv (s : string) (gs : list string) :
  regexp.run [] s = Some gs -> s = ""%string /\ gs = [].
Proof. destruct s; [intros [= <-]; now split|discriminate]. Qed.

(** What a match of the first repair pattern tells about the text. *)
Lemma find_first_pattern_inv (s : string) (m : list string) :
  regexp.FindStringSubmatch cve5.introducedFixedRE s = m -> m <> [] ->
  exists a b,
    m = [s; a; b] /\ s = (">= " ++ a ++ ", < " ++ b)%string
    /\ spec.groupText a = true /\ spec.groupText b = true.
Proof.
  unfold regexp.FindStringSubmatch, cve5.introducedFixedRE.
  destruct (regexp.run _ s) as [gs|] eqn:Hrun; intros <- Hne; [|congruence].
  apply run_Lit_inv in Hrun as (s1 & -> & Hrun).
  apply run_DotPlus_inv in Hrun as (a & s2 & gs2 & -> & -> & Ha & Hrun).
  apply run_Lit_inv in Hrun as (s3 & -> & Hrun).
  apply run_DotPlus_inv in Hrun as (b & s4 & gs4 & -> & -> & Hb & Hrun).
  apply run_end_inv in Hrun as [-> ->].
  exists a, b. rewrite append_empty_r. repeat split; assumption.
Qed.

(** What a match of the second repair pattern tells about the text. *)
Lemma find_second_pattern_inv (s : string) (m : list string) :
  regexp.FindStringSubmatch cve5.fixedRE s = m -> m <> [] ->
  exists b, m = [s; b] /\ s = ("< " ++ b)%string /\ spec.groupText b = true.
Proof.
  unfold regexp.FindStringSubmatch, cve5.fixedRE.
  destruct (regexp.run _ s) as [gs|] eqn:Hrun; intros <- Hne; [|congruence].
  apply run_Lit_inv in Hrun as (s1 & -> & Hrun).
  apply run_DotPlus_inv in Hrun as (b & s4 & gs4 & -> & -> & Hb & Hrun).
  apply run_end_inv in Hrun as [-> ->].
  exists b. rewrite append_empty_r. repeat split; assumption.
Qed.

Lemma groupText_nonempty (s : string) : spec.groupText s = true -> s <> "".
Proof.
  unfold spec.groupText. intros H. apply andb_true_iff in H as [H _].
  now apply nonEmpty_true.
Qed.

Lemma valid_nonempty (s : string) : version.IsValid s = true -> s <> "".
Proof. intros H ->. discriminate H. Qed.

(** The three ways [toVersionRange] returns a range. *)
Lemma toVersionRange_inv (cvr : cve5.VersionRange) (ds : string)
  (v : report.VersionRange) :
  cve5.toVersionRange cvr ds = Some v ->
  (cve5.Introduced cvr
   = (">= " ++ report.Introduced v ++ ", < " ++ report.Fixed v)%string
   /\ spec.groupText (report.Introduced v) = true
   /\ spec.groupText (report.Fixed v) = true)
  \/ (cve5.Introduced cvr = ("< " ++ report.Fixed v)%string
      /\ report.Introduced v = ""
      /\ spec.groupText (report.Fixed v) = true)
  \/ (spec.noRepair cvr
      /\ version.IsValid (cve5.Introduced cvr) = true
      /\ version.IsValid (cve5.Fixed cvr) = true
      /\ report.Fixed v = cve5.Fixed cvr
      /\ report.Introduced v
         = (if String.eqb (cve5.Introduced cvr) "0" then ""
            else cve5.Introduced cvr)).
Proof.
  intros H.
  destruct (regexp.FindStringSubmatch cve5.introducedFixedRE (cve5.Introduced cvr))
    as [|w1 m1] eqn:H1.
  - destruct (regexp.FindStringSubmatch cve5.fixedRE (cve5.Introduced cvr))
      as [|w2 m2] eqn:H2.
    + right; right.
      assert (Hno : spec.noRepair cvr) by (split; assumption).
      rewrite (toVersionRange_direct cvr ds Hno) in H.
      destruct (version.IsValid (cve5.Introduced cvr));
        [|rewrite !orb_true_r in H; discriminate].
      destruct (version.IsValid (cve5.Fixed cvr));
        [|rewrite !orb_true_r in H; discriminate].
      destruct (_ || _); [discriminate|]. inversion H. auto.
    + right; left.
      destruct (find_second_pattern_inv _ _ H2) as (b & Hm & Hs & Hb);
        [discriminate|].
      unfold cve5.toVersionRange in H. rewrite H1, H2 in H.
      injection Hm as -> ->. inversion H. cbn. auto.
  - left.
    destruct (find_first_pattern_inv _ _ H1) as (a & b & Hm & Hs & Ha & Hb);
      [discriminate|].
    unfold cve5.toVersionRange in H. rewrite H1 in H.
    injection Hm as -> ->. inversion H. cbn. auto.
Qed.

(** X3: every internal range the Recoverer returns comes from an external
    range that is not an "n/a" entry, in one of three ways: its introduced
    field reads ">= A, < B" and the range is from A to B; its introduced
    field reads "< B" and the range has the fixed bound B alone; or its
    introduced and fixed fields are valid versions and are copied ("0"
    becoming the empty introduced bound).  In each case the fixed bound is
    not empty: the Recoverer never returns an open-ended range. *)
Theorem recovered_ranges_traceable
  (vrs : list cve5.VersionRange) (defaultStatus : string)
  (v : report.VersionRange) :
  In v (fst (cve5.convertVersions vrs defaultStatus)) ->
  report.Fixed v <> ""
  /\ exists vr,
       In vr vrs /\ cve5.Introduced vr <> "n/a"
       /\ ((cve5.Introduced vr
            = (">= " ++ report.Introduced v ++ ", < " ++ report.Fixed v)%string
            /\ report.Introduced v <> "")
           \/ (cve5.Introduced vr = ("< " ++ report.Fixed v)%string
               /\ report.Introduced v = "")
           \/ (version.IsValid (cve5.Introduced vr) = true
               /\ version.IsValid (cve5.Fixed vr) = true
               /\ report.Fixed v = cve5.Fixed vr
               /\ report.Introduced v
                  = (if String.eqb (cve5.Introduced vr) "0" then ""
                     else cve5.Introduced vr))).
Proof.
  rewrite convertVersions_eq. cbn [fst]. intros Hin.
  apply in_flat_map in Hin as (vr & Hvr & Hin).
  unfold spec.recoveredOne in Hin.
  destruct (String.eqb_spec (cve5.Introduced vr) "n/a") as [|Hna];
    [contradiction|].
  destruct (cve5.toVersionRange vr defaultStatus) as [v'|] eqn:Hto;
    [|contradiction].
  destruct Hin as [->|[]].
  apply toVersionRange_inv in Hto
    as [(Hi & Ha & Hb)|[(Hi & He & Hb)|(_ & Hvi & Hvf & Hf & Hi)]].
  - split; [now apply groupText_nonempty|].
    exists vr. split; [assumption|]. split; [assumption|]. left.
    split; [assumption|now apply groupText_nonempty].
  - split; [now apply groupText_nonempty|].
    exists vr. split; [assumption|]. split; [assumption|]. right; left.
    now split.
  - split; [rewrite Hf; now apply valid_nonempty|].
    exists vr. split; [assumption|]. split; [assumption|]. right; right.
    auto.
Qed.

Lemma recovered_ranges_traceable_witness :
  report.Fixed {| report.Introduced := "1.0.0"; report.Fixed := "2.0.0" |}
  <> "".
Proof.
  apply (recovered_ranges_traceable
           [ {| cve5.Introduced := ">= 1.0.0, < 2.0.0"; cve5.Fixed := "";
                cve5.LessThanOrEqual := ""; cve5.Status := "affected";
                cve5.VersionType := "custom" |} ] "affected").
  cbn. now left.
Defined.

(** ** Recoverer after Normalizer, for a sequence that ends open *)

Lemma append_assoc (a b c : string) :
  ((a ++ b) ++ c)%string = (a ++ (b ++ c))%string.
Proof. induction a as [|x a IH]; simpl; [reflexivity|now rewrite IH]. Qed.

Lemma window_degrades (w : cve5.VersionRange) :
  version.IsValid (cve5.Introduced w) = true ->
  cve5.Fixed w <> "" ->
  cve5.Status w = cve5.StatusUnaffected ->
  spec.recoveredOne cve5.StatusAffected w = []
  /\ spec.notedOne cve5.StatusAffected w
     = [ {| report.Version :=
              ("unaffected from " ++ cve5.Introduced w ++ " before "
               ++ cve5.Fixed w ++ " (default: affected)")%string;
            report.Type_ := "cve_version_range" |} ].
Proof.
  intros Hv Hf Hs.
  destruct (valid_not_repaired _ Hv) as (H1 & H2 & Hna).
  unfold spec.recoveredOne, spec.notedOne. rewrite Hna.
  rewrite toVersionRange_direct by (split; assumption).
  replace (negb (String.eqb cve5.StatusAffected cve5.StatusUnaffected))
    with true by reflexivity.
  rewrite orb_true_r. split; [reflexivity|].
  unfold cve5.toUnsupported. apply nonEmpty_true in Hf. rewrite Hf, Hs.
  replace (cve5.nonEmpty cve5.StatusAffected) with true by reflexivity.
  f_equal. f_equal. now rewrite !append_assoc.
Qed.

Lemma windows_degrade (l : list cve5.VersionRange) :
  Forall (fun w => version.IsValid (cve5.Introduced w) = true
                   /\ cve5.Fixed w <> ""
                   /\ cve5.Status w = cve5.StatusUnaffected) l ->
  flat_map (spec.recoveredOne cve5.StatusAffected) l = []
  /\ flat_map (spec.notedOne cve5.StatusAffected) l
     = map (fun w =>
              {| report.Version :=
                   ("unaffected from " ++ cve5.Introduced w ++ " before "
                    ++ cve5.Fixed w ++ " (default: affected)")%string;
                 report.Type_ := "cve_version_range" |}) l.
Proof.
  induction 1 as [|w l (Hv & Hf & Hs) _ [IH1 IH2]]; [split; reflexivity|].
  cbn [flat_map map]. destruct (window_degrades w Hv Hf Hs) as [-> ->].
  rewrite IH1, IH2. split; reflexivity.
Qed.

Lemma windows_Fixed_nonempty (l : list report.VersionRange) :
  forall start w, In w (spec.windows start l) -> cve5.Fixed w <> "".
Proof.
  induction l as [|vr rest IH]; intros start w Hin; [contradiction|].
  cbn [spec.windows] in Hin. apply in_app_or in Hin as [Hin|Hin].
  - unfold spec.hasIntroduced in Hin.
    destruct (cve5.nonEmpty (report.Introduced vr)) eqn:Hi; [|contradiction].
    destruct Hin as [<-|[]]. now apply nonEmpty_true.
  - now apply IH in Hin.
Qed.

(** X4: for a sequence whose last range has an empty fixed bound and whose
    other fixed bounds are empty or valid versions, the Recoverer run on
    the output of the Normalizer recovers no internal range at all: each
    Unaffected window comes back as the note "unaffected from <start>
    before <end> (default: affected)", one per introduced boundary. *)
Theorem recover_open_tail (versions : list report.VersionRange) :
  versions <> [] ->
  report.Fixed (cve5.lastRange versions) = "" ->
  Forall (fun vr => report.Fixed vr = ""
                    \/ version.IsValid (report.Fixed vr) = true) versions ->
  cve5.convertVersions (fst (cve5.versionRangeToVersionRange versions))
                       (snd (cve5.versionRangeToVersionRange versions))
  = ([],
     map (fun w =>
            {| report.Version :=
                 ("unaffected from " ++ cve5.Introduced w ++ " before "
                  ++ cve5.Fixed w ++ " (default: affected)")%string;
               report.Type_ := "cve_version_range" |})
         (fst (cve5.versionRangeToVersionRange versions)))
  /\ length (snd (cve5.convertVersions
                    (fst (cve5.versionRangeToVersionRange versions))
                    (snd (cve5.versionRangeToVersionRange versions))))
     = length (filter spec.hasIntroduced versions).
Proof.
  intros Hne Hlast Hvalid. rewrite versionRangeToVersionRange_eq.
  destruct versions as [|v0 rest]; [congruence|].
  rewrite Hlast. cbn [String.eqb fst snd]. rewrite convertVersions_eq.
  assert (Hall : Forall (fun w => version.IsValid (cve5.Introduced w) = true
                                  /\ cve5.Fixed w <> ""
                                  /\ cve5.Status w = cve5.StatusUnaffected)
                        (spec.windows "" (v0 :: rest))).
  { apply Forall_forall. intros w Hw. split; [|split].
    - apply windows_Introduced in Hw as H.
      destruct H as [H|[[Hs _]|(vr & Hin & Hf & H)]].
      + now rewrite H.
      + now elim Hs.
      + rewrite H. rewrite Forall_forall in Hvalid.
        destruct (Hvalid vr Hin) as [He|Hv]; [contradiction|exact Hv].
    - now apply windows_Fixed_nonempty in Hw.
    - pose proof (windows_unaffected (v0 :: rest) "") as Hu.
      rewrite Forall_forall in Hu. now apply Hu. }
  destruct (windows_degrade _ Hall) as [-> ->]. split; [reflexivity|].
  cbn [snd]. now rewrite length_map, windows_length.
Qed.

Lemma recover_open_tail_witness :
  cve5.convertVersions
    (fst (cve5.versionRangeToVersionRange
            [ {| report.Introduced := ""; report.Fixed := "1.2.0" |};
              {| report.Introduced := "1.3.0"; report.Fixed := "" |} ]))
    (snd (cve5.versionRangeToVersionRange
            [ {| report.Introduced := ""; report.Fixed := "1.2.0" |};
              {| report.Introduced := "1.3.0"; report.Fixed := "" |} ]))
  = ([],
     [ {| report.Version :=
            "unaffected from 1.2.0 before 1.3.0 (default: affected)";
          report.Type_ := "cve_version_range" |} ]).
Proof.
  refine (proj1 (recover_open_tail
            [ {| report.Introduced := ""; report.Fixed := "1.2.0" |};
              {| report.Introduced := "1.3.0"; report.Fixed := "" |} ]
            _ _ _)).
  - discriminate.
  - reflexivity.
  - apply Forall_cons; [now right|].
    apply Forall_cons; [now left|apply Forall_nil].
Defined.

(** ** The module a Path Resolver call returns *)

Section PathResolverModule.

Variable stdlib_Contains : string -> bool.
Variable stdlib_ToolchainModulePath : string.
Variable stdlib_ModulePath : string.

Local Abbreviation toModule a hint :=
  (cve5.affectedToModule stdlib_Contains stdlib_ToolchainModulePath
                         stdlib_ModulePath a hint).

Local Abbreviation toModules affecteds hint :=
  (cve5.affectedToModules stdlib_Contains stdlib_ToolchainModulePath
                          stdlib_ModulePath affecteds hint).

(** [affectedToModule], with the package path named. *)
Lemma affectedToModule_eq (a : cve5.Affected) (hint : string) :
  let pkg :=
    if strings.HasSuffix hint (spec.preferredPath a hint) then hint
    else spec.preferredPath a hint in
  toModule a hint
  = {| report.Module_ :=
         if stdlib_Contains pkg then
           if strings.HasPrefix pkg stdlib_ToolchainModulePath
           then stdlib_ToolchainModulePath else stdlib_ModulePath
         else hint;
       report.Versions :=
         fst (cve5.convertVersions (cve5.Versions a) (cve5.DefaultStatus a));
       report.UnsupportedVersions :=
         snd (cve5.convertVersions (cve5.Versions a) (cve5.DefaultStatus a));
       report.Packages :=
         [ {| report.Package_ := pkg;
              report.Symbols := map cve5.Name (cve5.ProgramRoutines a);
              report.GOOS := cve5.Platforms a |} ] |}.
Proof.
  unfold cve5.affectedToModule, spec.preferredPath.
  destruct (cve5.convertVersions _ _). reflexivity.
Qed.

(** X5: the module [affectedToModule] returns holds exactly one package,
    with the routine names as symbols and the platforms as GOOS, and the
    ranges and notes of the Recoverer.  The standard-library test runs on
    the package path after the suffix collapse: when it fails the module
    path is the hint, when it holds the module path is the toolchain module
    if the package path starts with it and the standard-library module
    otherwise.  So a package name that is a trailing part of a hint outside
    the standard library leaves the module path at the hint. *)
Theorem affectedToModule_module_path (a : cve5.Affected) (hint : string) :
  exists pkg,
    report.Packages (toModule a hint)
    = [ {| report.Package_ := pkg;
           report.Symbols := map cve5.Name (cve5.ProgramRoutines a);
           report.GOOS := cve5.Platforms a |} ]
    /\ (stdlib_Contains pkg = false -> report.Module_ (toModule a hint) = hint)
    /\ (stdlib_Contains pkg = true ->
        strings.HasPrefix pkg stdlib_ToolchainModulePath = true ->
        report.Module_ (toModule a hint) = stdlib_ToolchainModulePath)
    /\ (stdlib_Contains pkg = true ->
        strings.HasPrefix pkg stdlib_ToolchainModulePath = false ->
        report.Module_ (toModule a hint) = stdlib_ModulePath)
    /\ ((exists pre, hint = (pre ++ spec.preferredPath a hint)%string) ->
        stdlib_Contains hint = false ->
        pkg = hint /\ report.Module_ (toModule a hint) = hint)
    /\ (report.Versions (toModule a hint),
        report.UnsupportedVersions (toModule a hint))
       = cve5.convertVersions (cve5.Versions a) (cve5.DefaultStatus a).
Proof.
  rewrite affectedToModule_eq. cbv zeta.
  cbn [report.Packages report.Module_ report.Versions report.UnsupportedVersions].
  eexists. split; [reflexivity|].
  split; [now intros ->|]. split; [now intros -> ->|].
  split; [now intros -> ->|]. split.
  - intros Hsuf Hc. apply HasSuffix_iff in Hsuf. rewrite Hsuf, Hc. now split.
  - now destruct (cve5.convertVersions _ _).
Qed.

(** X6: [affectedToModules] never returns an empty list: it returns one
    module per affected entry, each with exactly one package, and for a
    record without affected entries a single placeholder module whose path
    is the hint, with no package, no range and no note. *)
Theorem affectedToModules_nonempty
  (affecteds : list cve5.Affected) (hint : string) :
  length (toModules affecteds hint) = Nat.max 1 (length affecteds)
  /\ (affecteds = [] ->
      toModules affecteds hint
      = [ {| report.Module_ := hint; report.Versions := [];
             report.UnsupportedVersions := []; report.Packages := [] |} ])
  /\ (affecteds <> [] ->
      Forall (fun m => length (report.Packages m) = 1)
             (toModules affecteds hint)
      /\ forall i a, nth_error affecteds i = Some a ->
           nth_error (toModules affecteds hint) i = Some (toModule a hint)).
Proof.
  destruct affecteds as [|a0 rest].
  - split; [reflexivity|]. split; [reflexivity|]. intros H; now elim H.
  - unfold cve5.affectedToModules. rewrite length_map.
    split; [reflexivity|]. split; [discriminate|]. intros _. split.
    + apply Forall_forall. intros m Hm. apply in_map_iff in Hm as (a & <- & _).
      now rewrite affectedToModule_eq.
    + intros i a Hi. now rewrite nth_error_map, Hi.
Qed.

End PathResolverModule.

Lemma affectedToModule_module_path_witness :
  report.Module_
    (cve5.affectedToModule
       (fun p => negb (String.eqb p "golang.org/x/foo/bar")) "cmd" "std"
       {| cve5.Vendor := ""; cve5.Product := "";
          cve5.CollectionURL := ""; cve5.PackageName := "bar";
          cve5.Versions := []; cve5.Platforms := [];
          cve5.ProgramRoutines := []; cve5.DefaultStatus := "" |}
       "golang.org/x/foo/bar")
  = "golang.org/x/foo/bar".
Proof.
  destruct (affectedToModule_module_path
              (fun p => negb (String.eqb p "golang.org/x/foo/bar")) "cmd" "std"
              {| cve5.Vendor := ""; cve5.Product := "";
                 cve5.CollectionURL := ""; cve5.PackageName := "bar";
                 cve5.Versions := []; cve5.Platforms := [];
                 cve5.ProgramRoutines := []; cve5.DefaultStatus := "" |}
              "golang.org/x/foo/bar")
    as (pkg & _ & _ & _ & _ & H & _).
  apply H; [|reflexivity].
  exists "golang.org/x/foo/"%string. reflexivity.
Defined.

Lemma affectedToModules_nonempty_witness :
  Forall (fun m => length (report.Packages m) = 1)
    (cve5.affectedToModules (fun _ => false) "cmd" "std"
       [ {| cve5.Vendor := ""; cve5.Product := "";
            cve5.CollectionURL := ""; cve5.PackageName := "example.com/m";
            cve5.Versions := []; cve5.Platforms := [];
            cve5.ProgramRoutines := []; cve5.DefaultStatus := "" |} ]
       "example.com/m").
Proof.
  apply (proj2 (proj2 (affectedToModules_nonempty (fun _ => false) "cmd" "std"
           [ {| cve5.Vendor := ""; cve5.Product := "";
                cve5.CollectionURL := ""; cve5.PackageName := "example.com/m";
                cve5.Versions := []; cve5.Platforms := [];
                cve5.ProgramRoutines := []; cve5.DefaultStatus := "" |} ]
           "example.com/m"))).
  discriminate.
Defined.

(** ** The record [FromReport] builds, and its way back *)

Lemma normalize_then_convert (versions : list report.VersionRange) :
  forallb spec.roundTrips versions = true ->
  cve5.convertVersions (fst (cve5.versionRangeToVersionRange versions))
                       (snd (cve5.versionRangeToVersionRange versions))
  = (versions, []).
Proof.
  intros Hrt. rewrite versionRangeToVersionRange_eq.
  destruct versions as [|v0 rest]; [reflexivity|].
  rewrite roundTrips_last_fixed by (assumption || discriminate).
  cbn [fst snd]. rewrite convertVersions_eq.
  now destruct (roundTrips_all (v0 :: rest) Hrt) as [-> ->].
Qed.

Section RecordRoundTrip.

Variable report_RemoveNewlines : string -> string.
Variable report_Vendor : string -> string.
Variable report_GoAdvisory : string -> string.
Variable report_AllSymbols : report.Package -> list string.
Variable stdlib_Contains : string -> bool.
Variable stdlib_ToolchainModulePath : string.
Variable stdlib_ModulePath : string.
Variable report_ReferenceFromUrl : string -> report.Reference.
Variable report_AddCVE :
  report.Report -> string -> string -> bool -> report.Report.

Local Abbreviation fromReport :=
  (cve5.FromReport report_RemoveNewlines report_Vendor report_GoAdvisory
                   report_AllSymbols).

Local Abbreviation entriesOf :=
  (cve5.moduleAffected report_Vendor report_AllSymbols).

Local Abbreviation toReport :=
  (cve5.cve5ToReport stdlib_Contains stdlib_ToolchainModulePath
                     stdlib_ModulePath report_ReferenceFromUrl report_AddCVE).

Local Abbreviation toModule a hint :=
  (cve5.affectedToModule stdlib_Contains stdlib_ToolchainModulePath
                         stdlib_ModulePath a hint).

(** The record of a successful [FromReport]. *)
Lemma FromReport_success (r : report.Report) (record : cve5.CVERecord) :
  fst (fromReport r) = Some record ->
  exists meta,
    report.CVEMetadata r = Some meta
    /\ report.CVEMeta_ID meta <> ""
    /\ report.CVEMeta_CWE meta <> ""
    /\ snd (fromReport r) = None
    /\ record
       = {| cve5.DataType := "CVE_RECORD";
            cve5.DataVersion := "5.0";
            cve5.Metadata_ := {| cve5.ID := report.CVEMeta_ID meta |};
            cve5.Containers_ :=
              {| cve5.CNAContainer :=
                   {| cve5.ProviderMetadata_ :=
                        {| cve5.OrgID := cve5.GoOrgUUID |};
                      cve5.Title := report_RemoveNewlines (report.Summary r);
                      cve5.Descriptions :=
                        [ {| cve5.Lang := "en";
                             cve5.Value :=
                               report_RemoveNewlines
                                 (if String.eqb (report.CVEMeta_Description meta) ""
                                  then report.Description r
                                  else report.CVEMeta_Description meta) |} ];
                      cve5.ProblemTypes :=
                        [ {| cve5.ProblemType_Descriptions :=
                               [ {| cve5.ProblemTypeDescription_Lang := "en";
                                    cve5.ProblemTypeDescription_Description :=
                                      report.CVEMeta_CWE meta |} ] |} ];
                      cve5.Affected_ := flat_map entriesOf (report.Modules r);
                      cve5.References :=
                        map (fun ref => {| cve5.URL := report.URL ref |})
                            (report.References r)
                        ++ [ {| cve5.URL := report_GoAdvisory (report.ID r) |} ]
                        ++ map (fun ref => {| cve5.URL := ref |})
                               (report.CVEMeta_References meta);
                      cve5.Credits :=
                        map (fun credit =>
                               {| cve5.Credit_Lang := "en";
                                  cve5.Credit_Value := credit |})
                            (report.Credits r) |} |} |}.
Proof.
  unfold cve5.FromReport, cve5.fromReportBody.
  destruct (report.CVEMetadata r) as [meta|]; [|discriminate].
  destruct (String.eqb_spec (report.CVEMeta_ID meta) "") as [|Hid];
    [discriminate|].
  destruct (String.eqb_spec (report.CVEMeta_CWE meta) "") as [|Hcwe];
    [discriminate|].
  cbn [fst snd derrors.Wrap]. intros [= <-]. exists meta. auto.
Qed.

(** X7: a record returned by [FromReport] identifies itself by the CVE
    identifier of the report (which is not empty), carries the report's CWE
    (not empty) as the one [getCWE5] reads back, is recognised by
    [isGoCNA5] as issued by the Go CNA, is a "CVE_RECORD" of version "5.0",
    and lists as reference URLs those of the report, then the advisory URL
    of the report identifier, then the CVE-specific ones. *)
Theorem FromReport_record_identity
  (r : report.Report) (record : cve5.CVERecord) :
  fst (fromReport r) = Some record ->
  exists meta,
    report.CVEMetadata r = Some meta
    /\ cve5.SourceID record = report.CVEMeta_ID meta
    /\ cve5.SourceID record <> ""
    /\ cve5.getCWE5 (cve5.CNAContainer (cve5.Containers_ record))
       = report.CVEMeta_CWE meta
    /\ cve5.getCWE5 (cve5.CNAContainer (cve5.Containers_ record)) <> ""
    /\ cve5.isGoCNA5 (cve5.CNAContainer (cve5.Containers_ record)) = true
    /\ cve5.DataType record = "CVE_RECORD"
    /\ cve5.DataVersion record = "5.0"
    /\ map cve5.URL
           (cve5.References (cve5.CNAContainer (cve5.Containers_ record)))
       = map report.URL (report.References r)
         ++ report_GoAdvisory (report.ID r)
         :: report.CVEMeta_References meta.
Proof.
  intros H. apply FromReport_success in H
    as (meta & Hmeta & Hid & Hcwe & _ & ->).
  exists meta.
  cbn [cve5.SourceID cve5.Metadata_ cve5.ID cve5.Containers_ cve5.CNAContainer
       cve5.getCWE5 cve5.ProblemTypes cve5.ProblemType_Descriptions
       cve5.ProblemTypeDescription_Description cve5.isGoCNA5
       cve5.ProviderMetadata_ cve5.OrgID cve5.DataType cve5.DataVersion
       cve5.References].
  repeat split; try assumption; try apply String.eqb_refl.
  rewrite !map_app, !map_map. cbn [map app cve5.URL]. now rewrite map_id.
Qed.

Lemma moduleAffected_eq (m : report.ModuleT) :
  entriesOf m
  = map (fun p =>
           {| cve5.Vendor := report_Vendor (report.Module_ m);
              cve5.Product := report.Package_ p;
              cve5.CollectionURL := "https://pkg.go.dev";
              cve5.PackageName := report.Package_ p;
              cve5.Versions :=
                fst (cve5.versionRangeToVersionRange (report.Versions m));
              cve5.Platforms := report.GOOS p;
              cve5.ProgramRoutines :=
                map (fun symbol => {| cve5.Name := symbol |})
                    (report_AllSymbols p);
              cve5.DefaultStatus :=
                snd (cve5.versionRangeToVersionRange (report.Versions m)) |})
        (report.Packages m).
Proof.
  unfold cve5.moduleAffected.
  now destruct (cve5.versionRangeToVersionRange (report.Versions m)).
Qed.

Lemma entries_length (ms : list report.ModuleT) :
  length (flat_map entriesOf ms)
  = list_sum (map (fun m => length (report.Packages m)) ms).
Proof.
  induction ms as [|m ms IH]; [reflexivity|].
  cbn [flat_map map list_sum]. rewrite length_app, IH, moduleAffected_eq.
  now rewrite length_map.
Qed.

(** X8: the affected entries of a record returned by [FromReport] are one
    per package of each module, in order, so a module without packages
    contributes none and its version ranges are left out; the entry written
    for a package of a module sits after the entries of the modules before
    it, names the package as both product and package name, and carries the
    vendor of that very module and the ranges and default status the
    Normalizer gives for that very module. *)
Theorem FromReport_affected_entries
  (r : report.Report) (record : cve5.CVERecord) :
  fst (fromReport r) = Some record ->
  let entries :=
    cve5.Affected_ (cve5.CNAContainer (cve5.Containers_ record)) in
  length entries
  = list_sum (map (fun m => length (report.Packages m)) (report.Modules r))
  /\ map cve5.PackageName entries
     = flat_map (fun m => map report.Package_ (report.Packages m))
                (report.Modules r)
  /\ (forall before m after j p,
         report.Modules r = before ++ m :: after ->
         nth_error (report.Packages m) j = Some p ->
         nth_error entries
           (list_sum (map (fun m' => length (report.Packages m')) before) + j)
         = Some {| cve5.Vendor := report_Vendor (report.Module_ m);
                   cve5.Product := report.Package_ p;
                   cve5.CollectionURL := "https://pkg.go.dev";
                   cve5.PackageName := report.Package_ p;
                   cve5.Versions :=
                     fst (cve5.versionRangeToVersionRange (report.Versions m));
                   cve5.Platforms := report.GOOS p;
                   cve5.ProgramRoutines :=
                     map (fun symbol => {| cve5.Name := symbol |})
                         (report_AllSymbols p);
                   cve5.DefaultStatus :=
                     snd (cve5.versionRangeToVersionRange
                            (report.Versions m)) |}).
Proof.
  intros H. apply FromReport_success in H as (meta & _ & _ & _ & _ & ->).
  cbn [cve5.Affected_ cve5.CNAContainer cve5.Containers_].
  split; [|split].
  - apply entries_length.
  - induction (report.Modules r) as [|m ms IH]; [reflexivity|].
    cbn [flat_map]. rewrite map_app, IH, moduleAffected_eq, map_map.
    reflexivity.
  - intros before m after j p Hmods Hp. rewrite Hmods, flat_map_app.
    cbn [flat_map]. rewrite <- entries_length.
    rewrite nth_error_app2 by lia.
    replace (length (flat_map entriesOf before) + j
             - length (flat_map entriesOf before)) with j by lia.
    assert (Hj : j < length (entriesOf m)).
    { rewrite moduleAffected_eq, length_map.
      apply nth_error_Some. congruence. }
    rewrite nth_error_app1 by exact Hj.
    now rewrite moduleAffected_eq, nth_error_map, Hp.
Qed.

Lemma fold_descriptionStep (ds : list cve5.Description) :
  forall acc,
    fold_left cve5.descriptionStep ds acc
    = (acc ++ String.concat ""
                (map (fun d => (cve5.Value d ++ String newline "")%string)
                     (filter (fun d => String.eqb (cve5.Lang d) "en") ds)))%string.
Proof.
  assert (Hconcat : forall x l,
             String.concat "" (x :: l) = (x ++ String.concat "" l)%string).
  { intros x [|y l]; cbn; [now rewrite append_empty_r|reflexivity]. }
  induction ds as [|d ds IH]; intros acc; cbn [fold_left filter map].
  - cbn. now rewrite append_empty_r.
  - rewrite IH. unfold cve5.descriptionStep.
    destruct (String.eqb (cve5.Lang d) "en"); [|reflexivity].
    cbn [map]. now rewrite Hconcat, append_assoc.
Qed.

(** X9: [cve5ToReport] hands [AddCVE] a draft report and the record's
    identifier, CWE and Go-CNA flag.  The draft has no identifier and no
    CVE metadata of its own; its summary is the title; its description is
    the English descriptions of the record, in order, each followed by a
    newline (empty when there is none); its credits are the credit values;
    and it always has at least one module. *)
Theorem cve5ToReport_draft (c : cve5.CVERecord) (hint : string) :
  exists draft,
    toReport c hint
    = report_AddCVE draft (cve5.SourceID c)
        (cve5.getCWE5 (cve5.CNAContainer (cve5.Containers_ c)))
        (cve5.isGoCNA5 (cve5.CNAContainer (cve5.Containers_ c)))
    /\ report.ID draft = ""
    /\ report.CVEMetadata draft = None
    /\ report.Summary draft
       = cve5.Title (cve5.CNAContainer (cve5.Containers_ c))
    /\ report.Description draft
       = String.concat ""
           (map (fun d => (cve5.Value d ++ String newline "")%string)
                (filter (fun d => String.eqb (cve5.Lang d) "en")
                        (cve5.Descriptions
                           (cve5.CNAContainer (cve5.Containers_ c)))))
    /\ report.Credits draft
       = map cve5.Credit_Value
             (cve5.Credits (cve5.CNAContainer (cve5.Containers_ c)))
    /\ length (report.References draft)
       = length (cve5.References (cve5.CNAContainer (cve5.Containers_ c)))
    /\ report.Modules draft <> [].
Proof.
  unfold cve5.cve5ToReport. eexists. split; [reflexivity|].
  cbn [report.ID report.CVEMetadata report.Summary report.Description
       report.Credits report.References report.Modules].
  repeat split.
  - now rewrite fold_descriptionStep.
  - now rewrite length_map.
  - destruct (cve5.Affected_ _); discriminate.
Qed.

(** X10: translating a report to a record and the record back calls
    [AddCVE] with the report's CVE identifier and CWE and the Go-CNA flag
    set, on a draft whose credits are those of the report, whose summary is
    the report's summary without newlines, whose description is the CVE
    description (or, when that is empty, the report's) without newlines and
    followed by one newline, and whose references are made from the report's
    URLs, the advisory URL and the CVE-specific URLs, in this order. *)
Theorem FromReport_then_cve5ToReport
  (r : report.Report) (record : cve5.CVERecord) (hint : string) :
  fst (fromReport r) = Some record ->
  exists meta draft,
    report.CVEMetadata r = Some meta
    /\ toReport record hint
       = report_AddCVE draft (report.CVEMeta_ID meta)
                       (report.CVEMeta_CWE meta) true
    /\ report.Credits draft = report.Credits r
    /\ report.Summary draft = report_RemoveNewlines (report.Summary r)
    /\ report.Description draft
       = (report_RemoveNewlines
            (if String.eqb (report.CVEMeta_Description meta) ""
             then report.Description r
             else report.CVEMeta_Description meta)
          ++ String newline "")%string
    /\ report.References draft
       = map report_ReferenceFromUrl
             (map report.URL (report.References r)
              ++ report_GoAdvisory (report.ID r)
              :: report.CVEMeta_References meta)
    /\ report.Modules draft
       = cve5.affectedToModules stdlib_Contains stdlib_ToolchainModulePath
           stdlib_ModulePath (flat_map entriesOf (report.Modules r)) hint.
Proof.
  intros H. apply FromReport_success in H
    as (meta & Hmeta & Hid & Hcwe & _ & ->).
  exists meta. unfold cve5.cve5ToReport. eexists.
  split; [assumption|]. split; [reflexivity|].
  cbn [report.ID report.CVEMetadata report.Summary report.Description
       report.Credits report.References report.Modules
       cve5.CNAContainer cve5.Containers_ cve5.Credits cve5.Title
       cve5.Descriptions cve5.References cve5.Affected_].
  split; [rewrite map_map; cbn [cve5.Credit_Value]; apply map_id|].
  split; [reflexivity|]. split; [reflexivity|]. split; [|reflexivity].
  rewrite !map_app, !map_map. cbn [map app cve5.URL]. reflexivity.
Qed.

(** X11: an affected entry written by [FromReport] for a package of a module
    whose ranges round-trip comes back from [affectedToModule] with exactly
    the ranges of the module and no note, with the symbols [AllSymbols]
    gave for the package and with its GOOS; when the package name is set,
    the package path is that name, or the hint if the name is a trailing
    part of the hint. *)
Theorem module_entry_roundtrip
  (m : report.ModuleT) (a : cve5.Affected) (hint : string) :
  In a (entriesOf m) ->
  forallb spec.roundTrips (report.Versions m) = true ->
  report.Versions (toModule a hint) = report.Versions m
  /\ report.UnsupportedVersions (toModule a hint) = []
  /\ exists p,
       In p (report.Packages m)
       /\ map report.Symbols (report.Packages (toModule a hint))
          = [report_AllSymbols p]
       /\ map report.GOOS (report.Packages (toModule a hint))
          = [report.GOOS p]
       /\ (cve5.isSet (report.Package_ p) = true ->
           spec.packagePaths (toModule a hint)
           = [ if strings.HasSuffix hint (report.Package_ p) then hint
               else report.Package_ p ]).
Proof.
  intros Ha Hrt. rewrite moduleAffected_eq in Ha.
  apply in_map_iff in Ha as (p & <- & Hp).
  rewrite affectedToModule_eq. cbv zeta.
  cbn [report.Versions report.UnsupportedVersions report.Packages
       cve5.Versions cve5.DefaultStatus cve5.ProgramRoutines cve5.Platforms].
  rewrite (normalize_then_convert (report.Versions m) Hrt). cbn [fst snd].
  split; [reflexivity|]. split; [reflexivity|].
  exists p. split; [assumption|]. cbn [map report.Symbols report.GOOS].
  split; [now rewrite map_map, map_id|]. split; [reflexivity|].
  intros Hset. unfold spec.packagePaths, spec.preferredPath.
  cbn [report.Packages map report.Package_ cve5.PackageName].
  now rewrite Hset.
Qed.

End RecordRoundTrip.

Lemma FromReport_record_identity_witness :
  exists record,
    fst spec.sampleFromReport = Some record
    /\ cve5.SourceID record = "CVE-2024-0001"
    /\ cve5.getCWE5 (cve5.CNAContainer (cve5.Containers_ record))
       = "CWE-20: Improper Input Validation".
Proof.
  eexists. split; [reflexivity|].
  destruct (FromReport_record_identity
              (fun s => s) (fun s => s) spec.sampleAdvisory report.Symbols
              spec.sampleReport _ eq_refl)
    as (meta & Hm & Hs & _ & Hc & _).
  injection Hm as <-. split; [exact Hs|exact Hc].
Defined.

Lemma FromReport_affected_entries_witness :
  exists record,
    fst spec.sampleFromReport2 = Some record
    /\ nth_error
         (cve5.Affected_ (cve5.CNAContainer (cve5.Containers_ record))) 1
       = Some {| cve5.Vendor := "example.com/n";
                 cve5.Product := "example.com/n/q";
                 cve5.CollectionURL := "https://pkg.go.dev";
                 cve5.PackageName := "example.com/n/q";
                 cve5.Versions :=
                   [ {| cve5.Introduced := "0"; cve5.Fixed := "0.4.0";
                        cve5.LessThanOrEqual := "";
                        cve5.Status := "affected";
                        cve5.VersionType := "semver" |} ];
                 cve5.Platforms := [];
                 cve5.ProgramRoutines := [];
                 cve5.DefaultStatus := "unaffected" |}.
Proof.
  eexists. split; [reflexivity|].
  exact (proj2 (proj2 (FromReport_affected_entries
                  (fun s => s) (fun s => s) spec.sampleAdvisory report.Symbols
                  spec.sampleReport2 _ eq_refl))
           [spec.sampleModule] spec.sampleModule2 [] 0
           {| report.Package_ := "example.com/n/q"; report.Symbols := [];
              report.GOOS := [] |}
           eq_refl eq_refl).
Defined.

Lemma FromReport_then_cve5ToReport_witness :
  exists record meta draft,
    fst spec.sampleFromReport = Some record
    /\ report.CVEMetadata spec.sampleReport = Some meta
    /\ cve5.cve5ToReport (fun _ => false) "cmd" "std"
         (fun url => {| report.URL := url |}) (fun r _ _ _ => r)
         record "example.com/m"
       = draft
    /\ report.Credits draft = ["A. Reporter"].
Proof.
  eexists.
  destruct (FromReport_then_cve5ToReport
              (fun s => s) (fun s => s) spec.sampleAdvisory report.Symbols
              (fun _ => false) "cmd" "std"
              (fun url => {| report.URL := url |}) (fun r _ _ _ => r)
              spec.sampleReport _ "example.com/m" eq_refl)
    as (meta & draft & Hm & Ht & Hc & _).
  exists meta, draft. split; [reflexivity|]. split; [exact Hm|].
  split; [exact Ht|exact Hc].
Defined.

Lemma module_entry_roundtrip_witness :
  report.Versions
    (cve5.affectedToModule (fun _ => false) "cmd" "std"
       {| cve5.Vendor := "example.com/m";
          cve5.Product := "example.com/m/pkg";
          cve5.CollectionURL := "https://pkg.go.dev";
          cve5.PackageName := "example.com/m/pkg";
          cve5.Versions :=
            fst (cve5.versionRangeToVersionRange
                   (report.Versions spec.sampleModule));
          cve5.Platforms := ["linux"];
          cve5.ProgramRoutines := [ {| cve5.Name := "Parse" |} ];
          cve5.DefaultStatus :=
            snd (cve5.versionRangeToVersionRange
                   (report.Versions spec.sampleModule)) |}
       "example.com/m")
  = report.Versions spec.sampleModule.
Proof.
  refine (proj1 (module_entry_roundtrip (fun s => s) report.Symbols
                   (fun _ => false) "cmd" "std"
                   spec.sampleModule _ "example.com/m" _ eq_refl)).
  left. reflexivity.
Defined.

(** ** The [create-excluded] filter *)

Section CreateExcludedProperties.

Variable Issue : Type.
Variable Issue_Assignee : Issue -> string.
Variable Issue_HasLabel : Issue -> string -> bool.
Variable ExcludedReason : Type.
Variable report_ExcludedReasons : list ExcludedReason.
Variable ExcludedReason_ToLabel : ExcludedReason -> string.
Variable creator_skipReason : Issue -> string.

Local Abbreviation excluded iss :=
  (vulnreport.isExcluded Issue Issue_HasLabel ExcludedReason
     report_ExcludedReasons ExcludedReason_ToLabel iss).

Local Abbreviation reason c iss :=
  (vulnreport.skipReason Issue Issue_Assignee Issue_HasLabel ExcludedReason
     report_ExcludedReasons ExcludedReason_ToLabel creator_skipReason c iss).

Lemma isExcluded_iff (iss : Issue) :
  excluded iss = true
  <-> exists er, In er report_ExcludedReasons
                 /\ Issue_HasLabel iss (ExcludedReason_ToLabel er) = true.
Proof.
  unfold vulnreport.isExcluded.
  induction report_ExcludedReasons as [|er rest IH]; cbn.
  - split; [discriminate|now intros (er & [] & _)].
  - destruct (Issue_HasLabel iss (ExcludedReason_ToLabel er)) eqn:Hl.
    + split; [intros _; exists er; auto|reflexivity].
    + rewrite IH. split.
      * intros (er' & Hin & H). exists er'. auto.
      * intros (er' & [<-|Hin] & H); [congruence|]. exists er'. auto.
Qed.

(** X12: [skipReason] gives no reason to skip an issue (the empty text)
    exactly when the issue carries the label of one of the excluded reasons,
    the command has no assignee filter or the issue is assigned to that
    user, and the creator itself gives no reason.  An issue without such a
    label is always skipped as "not excluded", whatever its assignee. *)
Theorem skipReason_empty_iff (c : vulnreport.createExcluded) (iss : Issue) :
  (reason c iss = ""
   <-> (exists er, In er report_ExcludedReasons
                   /\ Issue_HasLabel iss (ExcludedReason_ToLabel er) = true)
       /\ (vulnreport.assignee c = ""
           \/ Issue_Assignee iss = vulnreport.assignee c)
       /\ creator_skipReason iss = "")
  /\ (~ (exists er, In er report_ExcludedReasons
                    /\ Issue_HasLabel iss (ExcludedReason_ToLabel er) = true)
      -> reason c iss = "not excluded").
Proof.
  rewrite <- isExcluded_iff. unfold vulnreport.skipReason.
  destruct (excluded iss) eqn:He; cbn [negb].
  - split; [|intros H; now elim H].
    destruct (String.eqb_spec (vulnreport.assignee c) "") as [Ha|Ha];
      cbn [negb andb].
    + split; [intros H; auto|now intros (_ & _ & H)].
    + destruct (String.eqb_spec (Issue_Assignee iss) (vulnreport.assignee c))
        as [Hi|Hi]; cbn [negb].
      * split; [intros H; auto|now intros (_ & _ & H)].
      * split; [discriminate|]. intros (_ & [H|H] & _); contradiction.
  - split; [|reflexivity].
    split; [discriminate|]. intros (H & _). discriminate H.
Qed.

End CreateExcludedProperties.

(** ** Sorting strings *)

Lemma ascii_compare_spec (x y : ascii) :
  CompareSpec (x = y) (N_of_ascii x < N_of_ascii y)%N
              (N_of_ascii y < N_of_ascii x)%N (Ascii.compare x y).
Proof.
  unfold Ascii.compare.
  destruct (N.compare_spec (N_of_ascii x) (N_of_ascii y)) as [H|H|H];
    constructor; try assumption.
  rewrite <- (ascii_N_embedding x), <- (ascii_N_embedding y). now rewrite H.
Qed.

Lemma string_leb_refl (s : string) : String.leb s s = true.
Proof. now destruct (String.leb_total s s). Qed.

Lemma string_leb_trans (a : string) :
  forall b c,
    String.leb a b = true -> String.leb b c = true -> String.leb a c = true.
Proof.
  unfold String.leb.
  induction a as [|x a IH]; intros [|y b] [|z c]; cbn [String.compare];
    try reflexivity; try discriminate.
  specialize (IH b c).
  destruct (ascii_compare_spec x y) as [Hxy|Hxy|Hxy];
    destruct (ascii_compare_spec y z) as [Hyz|Hyz|Hyz];
    destruct (ascii_compare_spec x z) as [Hxz|Hxz|Hxz];
    subst; try reflexivity; try discriminate; try (intros; lia);
    try exact IH.
Qed.

Lemma insert_perm (x : string) (l : list string) :
  Permutation (x :: l) (slices.insert x l).
Proof.
  induction l as [|y l IH]; cbn; [reflexivity|].
  destruct (String.leb x y); [reflexivity|].
  rewrite perm_swap. now constructor.
Qed.

Lemma Sort_perm (l : list string) : Permutation l (slices.Sort l).
Proof.
  induction l as [|x l IH]; cbn; [constructor|].
  rewrite <- insert_perm. now constructor.
Qed.

Lemma insert_sorted (x : string) (l : list string) :
  Sorted spec.string_le l -> Sorted spec.string_le (slices.insert x l).
Proof.
  induction l as [|y l IH]; intros Hs; cbn.
  - repeat constructor.
  - destruct (String.leb x y) eqn:Hxy.
    + constructor; [assumption|]. now constructor.
    + inversion Hs as [|? ? Hl Hhd]; subst. constructor; [now apply IH|].
      assert (Hyx : spec.string_le y x).
      { destruct (String.leb_total x y) as [H|H]; [congruence|exact H]. }
      destruct l as [|z l]; cbn; [now constructor|].
      destruct (String.leb x z); constructor; [assumption|].
      now inversion Hhd.
Qed.

Lemma Sort_sorted (l : list string) : Sorted spec.string_le (slices.Sort l).
Proof.
  induction l as [|x l IH]; cbn; [constructor|now apply insert_sorted].
Qed.

Lemma Sort_strongly_sorted (l : list string) :
  StronglySorted spec.string_le (slices.Sort l).
Proof.
  apply Sorted_StronglySorted; [|apply Sort_sorted].
  intros a b c. apply string_leb_trans.
Qed.

(** Two ascending lists with the same elements are equal. *)
Lemma sorted_unique (l1 : list string) :
  forall l2,
    StronglySorted spec.string_le l1 -> StronglySorted spec.string_le l2 ->
    Permutation l1 l2 -> l1 = l2.
Proof.
  induction l1 as [|x l1 IH]; intros l2 H1 H2 Hp.
  - apply Permutation_nil in Hp. now subst.
  - destruct l2 as [|y l2];
      [apply Permutation_sym, Permutation_nil in Hp; discriminate|].
    inversion H1 as [|? ? Hs1 Hall1]; subst.
    inversion H2 as [|? ? Hs2 Hall2]; subst.
    rewrite Forall_forall in Hall1, Hall2.
    assert (Hxy : spec.string_le x y).
    { assert (Hin : In y (x :: l1))
        by (eapply Permutation_in; [symmetry; exact Hp|now left]).
      destruct Hin as [->|Hin]; [apply string_leb_refl|now apply Hall1]. }
    assert (Hyx : spec.string_le y x).
    { assert (Hin : In x (y :: l2))
        by (eapply Permutation_in; [exact Hp|now left]).
      destruct Hin as [->|Hin]; [apply string_leb_refl|now apply Hall2]. }
    assert (x = y) by now apply String.leb_antisym. subst y.
    f_equal. apply IH; try assumption. now apply Permutation_cons_inv in Hp.
Qed.

(** X13: [sorted] returns the elements of its argument in ascending
    byte-wise order, each as many times as in the argument; so two slices
    with the same elements, in whatever order, have the same sorted copy,
    and sorting a sorted copy changes nothing. *)
Theorem sorted_ascending_permutation (s : list string) :
  Permutation s (vulnreport.sorted s)
  /\ StronglySorted (fun a b => String.leb a b = true) (vulnreport.sorted s)
  /\ (forall s', Permutation s s' -> vulnreport.sorted s' = vulnreport.sorted s)
  /\ vulnreport.sorted (vulnreport.sorted s) = vulnreport.sorted s.
Proof.
  unfold vulnreport.sorted.
  assert (Hsame : forall s1 s2,
             Permutation s1 s2 -> slices.Sort s2 = slices.Sort s1).
  { intros s1 s2 Hp. apply sorted_unique; try apply Sort_strongly_sorted.
    rewrite <- !Sort_perm. now symmetry. }
  split; [apply Sort_perm|]. split; [apply Sort_strongly_sorted|].
  split; [apply Hsame|]. apply Hsame. apply Sort_perm.
Qed.

(** ** The text of [xref] *)

Lemma concat_cons (x : string) (l : list string) :
  String.concat "" (x :: l) = (x ++ String.concat "" l)%string.
Proof. destruct l; cbn; [now rewrite append_empty_r|reflexivity]. Qed.

Lemma concat_app (l1 l2 : list string) :
  String.concat "" (l1 ++ l2)
  = (String.concat "" l1 ++ String.concat "" l2)%string.
Proof.
  induction l1 as [|x l1 IH]; [reflexivity|].
  rewrite <- app_comm_cons, !concat_cons, IH. now rewrite append_assoc.
Qed.

Lemma mapDelete_perm (key : string) (m m' : vulnreport.Matches) :
  Permutation m m' ->
  Permutation (vulnreport.mapDelete key m) (vulnreport.mapDelete key m').
Proof.
  unfold vulnreport.mapDelete.
  induction 1 as [|kv l l' _ IH|kv1 kv2 l|l l' l'' _ IH1 _ IH2]; cbn.
  - constructor.
  - destruct (negb _); [now constructor|assumption].
  - destruct (negb (String.eqb (fst kv1) key)),
             (negb (String.eqb (fst kv2) key));
      try reflexivity. apply perm_swap.
  - now transitivity (filter (fun kv => negb (String.eqb (fst kv) key)) l').
Qed.

Lemma mapDelete_keys (key : string) (m : vulnreport.Matches) (k : string) :
  In k (vulnreport.mapKeys (vulnreport.mapDelete key m))
  <-> k <> key /\ In k (vulnreport.mapKeys m).
Proof.
  unfold vulnreport.mapKeys, vulnreport.mapDelete. rewrite !in_map_iff. split.
  - intros (kv & <- & Hin). apply filter_In in Hin as [Hin Hne].
    apply negb_true_iff, String.eqb_neq in Hne. split; [assumption|].
    now exists kv.
  - intros (Hne & kv & <- & Hin). exists kv. split; [reflexivity|].
    apply filter_In. split; [assumption|].
    now apply negb_true_iff, String.eqb_neq.
Qed.

Lemma mapDelete_NoDup (key : string) (m : vulnreport.Matches) :
  NoDup (vulnreport.mapKeys m) ->
  NoDup (vulnreport.mapKeys (vulnreport.mapDelete key m)).
Proof.
  induction m as [|[k v] m IH]; cbn; [constructor|].
  intros Hnd. inversion Hnd as [|? ? Hnot Hrest]; subst.
  destruct (negb (String.eqb k key)); cbn; [|now apply IH].
  constructor; [|now apply IH].
  intros Hin. apply Hnot.
  now apply (mapDelete_keys key m k) in Hin as [_ Hin].
Qed.

Lemma mapIndex_absent (m : vulnreport.Matches) (key : string) :
  ~ In key (vulnreport.mapKeys m) -> vulnreport.mapIndex m key = [].
Proof.
  induction m as [|[k v] m IH]; cbn; [reflexivity|]. intros Hnot.
  destruct (String.eqb_spec k key) as [->|_]; [elim Hnot; now left|].
  apply IH. intros H. apply Hnot. now right.
Qed.

Lemma mapIndex_present (m : vulnreport.Matches) (key : string)
  (ids : list string) :
  NoDup (vulnreport.mapKeys m) -> In (key, ids) m ->
  vulnreport.mapIndex m key = ids.
Proof.
  induction m as [|[k v] m IH]; cbn; [contradiction|].
  intros Hnd [Heq|Hin]; inversion Hnd as [|? ? Hnot Hrest]; subst.
  - injection Heq as -> ->. now rewrite String.eqb_refl.
  - destruct (String.eqb_spec k key) as [->|_]; [|now apply IH].
    elim Hnot. unfold vulnreport.mapKeys. apply in_map_iff.
    now exists (key, ids).
Qed.

(** With distinct keys, a lookup does not depend on the order of the list. *)
Lemma mapIndex_perm (m m' : vulnreport.Matches) (key : string) :
  NoDup (vulnreport.mapKeys m) -> Permutation m m' ->
  vulnreport.mapIndex m key = vulnreport.mapIndex m' key.
Proof.
  intros Hnd Hp.
  assert (Hnd' : NoDup (vulnreport.mapKeys m')).
  { eapply Permutation_NoDup; [|exact Hnd]. now apply Permutation_map. }
  destruct (in_dec string_dec key (vulnreport.mapKeys m)) as [Hin|Hnot].
  - unfold vulnreport.mapKeys in Hin. apply in_map_iff in Hin as ([k ids] & Hk & Hin).
    cbn in Hk. subst k.
    rewrite (mapIndex_present m key ids Hnd Hin).
    symmetry. apply mapIndex_present; [assumption|].
    now apply (Permutation_in _ Hp).
  - rewrite (mapIndex_absent m key Hnot). symmetry. apply mapIndex_absent.
    intros Hin. apply Hnot.
    eapply Permutation_in; [|exact Hin].
    apply Permutation_map. now symmetry.
Qed.

Lemma Sort_same (s1 s2 : list string) :
  Permutation s1 s2 -> slices.Sort s1 = slices.Sort s2.
Proof.
  intros Hp. apply sorted_unique; try apply Sort_strongly_sorted.
  now rewrite <- !Sort_perm.
Qed.

Section XRefProperties.

Variable rc_Report : string -> option report.Report.
Variable report_YAMLFilename : report.Report -> string * option derrors.error.
Variable report_IsExcluded : report.Report -> bool.
Variable report_Excluded : report.Report -> string.

Local Abbreviation line fname out id :=
  (vulnreport.xrefLine rc_Report report_IsExcluded report_Excluded
                       fname out id).

Local Abbreviation xrefWith rc_XRef r :=
  (vulnreport.xref rc_XRef rc_Report report_YAMLFilename report_IsExcluded
                   report_Excluded r).

Lemma xrefLine_append (fname out id : string) :
  line fname out id = (out ++ line fname "" id)%string.
Proof.
  unfold vulnreport.xrefLine.
  destruct (rc_Report fname) as [r|]; [|reflexivity].
  destruct (report_IsExcluded r); [|reflexivity].
  cbn [append]. now rewrite append_assoc.
Qed.

Lemma fold_xrefLine (fname : string) (ids : list string) :
  forall out,
    fold_left (fun out id => line fname out id) ids out
    = (out ++ String.concat "" (map (fun id => line fname "" id) ids))%string.
Proof.
  induction ids as [|id ids IH]; intros out; cbn [fold_left map].
  - cbn. now rewrite append_empty_r.
  - now rewrite IH, concat_cons, xrefLine_append, append_assoc.
Qed.

Lemma fold_files (idsOf : string -> list string) (fnames : list string) :
  forall out,
    fold_left
      (fun out fname =>
         fold_left (fun out id => line fname out id) (idsOf fname) out)
      fnames out
    = (out ++ String.concat ""
                (flat_map (fun fname =>
                             map (fun id => line fname "" id) (idsOf fname))
                          fnames))%string.
Proof.
  induction fnames as [|fname fnames IH]; intros out; cbn [fold_left flat_map].
  - cbn. now rewrite append_empty_r.
  - now rewrite IH, fold_xrefLine, concat_app, append_assoc.
Qed.

(** What one turn of the inner loop writes. *)
Lemma xrefLine_text (fname id : string) :
  line fname "" id
  = spec.xrefLineText rc_Report report_IsExcluded report_Excluded fname id.
Proof.
  unfold vulnreport.xrefLine, spec.xrefLineText. cbn [append].
  destruct (rc_Report fname) as [r'|];
    [destruct (report_IsExcluded r')|].
  - cbn [append]. now rewrite !append_assoc.
  - now rewrite append_empty_r.
  - now rewrite append_empty_r.
Qed.

(** X14: when the file name of the report cannot be computed, [xref]
    returns that error and no text.  Otherwise it returns no error and a
    text made of one line per identifier of each matching file other than
    the report's own, files in ascending order and the identifiers of a file
    in ascending order; a line is a newline followed by "<id> appears in
    <file>", and by two spaces and the excluded reason when the file holds
    an excluded report.  The report's own file is never listed, and when no
    other file matches the text is empty. *)
Theorem xref_text (rc_XRef : report.Report -> vulnreport.Matches)
  (r : report.Report) :
  (forall f e,
      report_YAMLFilename r = (f, Some e) ->
      xrefWith rc_XRef r = (""%string, Some e))
  /\ (forall f,
         report_YAMLFilename r = (f, None) ->
         let others := vulnreport.mapDelete f (rc_XRef r) in
         xrefWith rc_XRef r
         = (String.concat ""
              (flat_map
                 (fun fname =>
                    map (spec.xrefLineText rc_Report report_IsExcluded
                                           report_Excluded fname)
                        (vulnreport.sorted (vulnreport.mapIndex others fname)))
                 (vulnreport.sorted (vulnreport.mapKeys others))),
            None)
         /\ (forall fname,
                In fname (vulnreport.sorted (vulnreport.mapKeys others))
                <-> fname <> f /\ In fname (vulnreport.mapKeys (rc_XRef r)))
         /\ (forall fname ids,
                NoDup (vulnreport.mapKeys (rc_XRef r)) ->
                In (fname, ids) (rc_XRef r) -> fname <> f ->
                vulnreport.mapIndex others fname = ids)
         /\ ((forall fname, In fname (vulnreport.mapKeys (rc_XRef r)) ->
                            fname = f) ->
             xrefWith rc_XRef r = (""%string, None))).
Proof.
  unfold vulnreport.xref. split.
  - intros f e ->. reflexivity.
  - intros f ->. cbv zeta. split; [|split; [|split]].
    + rewrite fold_files. cbn [append]. f_equal. f_equal.
      apply flat_map_ext. intros fname. apply map_ext. intros id.
      apply xrefLine_text.
    + intros fname. unfold vulnreport.sorted. split.
      * intros Hin. apply mapDelete_keys.
        eapply Permutation_in; [symmetry; apply Sort_perm|exact Hin].
      * intros H. apply mapDelete_keys in H.
        eapply Permutation_in; [apply Sort_perm|exact H].
    + intros fname ids Hnd Hin Hne.
      apply mapIndex_present; [now apply mapDelete_NoDup|].
      unfold vulnreport.mapDelete. apply filter_In. split; [exact Hin|].
      now apply negb_true_iff, String.eqb_neq.
    + intros Hown.
      assert (Hnil : vulnreport.mapDelete f (rc_XRef r) = []).
      { unfold vulnreport.mapDelete, vulnreport.mapKeys in *.
        induction (rc_XRef r) as [|kv m IH]; [reflexivity|]. cbn.
        rewrite (Hown (fst kv)) by now left.
        rewrite String.eqb_refl. cbn. apply IH.
        intros fname Hin. apply Hown. now right. }
      now rewrite Hnil.
Qed.

(** X15: the text of [xref] does not depend on the order in which the map of
    matches is traversed: two association lists with distinct keys that
    hold the same entries give the same result. *)
Theorem xref_order_independent
  (rc_XRef rc_XRef' : report.Report -> vulnreport.Matches)
  (r : report.Report) :
  NoDup (vulnreport.mapKeys (rc_XRef r)) ->
  Permutation (rc_XRef r) (rc_XRef' r) ->
  xrefWith rc_XRef r = xrefWith rc_XRef' r.
Proof.
  intros Hnd Hp. unfold vulnreport.xref.
  destruct (report_YAMLFilename r) as [f [e|]]; [reflexivity|].
  cbv zeta. rewrite !fold_files. f_equal. cbn [append]. f_equal.
  pose proof (mapDelete_perm f _ _ Hp) as Hp'.
  pose proof (mapDelete_NoDup f _ Hnd) as Hnd'.
  unfold vulnreport.sorted.
  rewrite (Sort_same (vulnreport.mapKeys (vulnreport.mapDelete f (rc_XRef r)))
                     (vulnreport.mapKeys (vulnreport.mapDelete f (rc_XRef' r))))
    by now apply Permutation_map.
  apply flat_map_ext. intros fname.
  now rewrite (mapIndex_perm _ _ fname Hnd' Hp').
Qed.

End XRefProperties.

Lemma xref_order_independent_witness :
  vulnreport.xref
    (fun _ => [ ("data/reports/GO-2024-0002.yaml", ["CVE-2024-0001"]);
                ("data/reports/GO-2024-0003.yaml", ["example.com/m"]) ])
    (fun _ => None) (fun r => ("data/reports/GO-2024-0001.yaml", None))
    (fun _ => false) (fun _ => ""%string) spec.sampleReport
  = vulnreport.xref
      (fun _ => [ ("data/reports/GO-2024-0003.yaml", ["example.com/m"]);
                  ("data/reports/GO-2024-0002.yaml", ["CVE-2024-0001"]) ])
      (fun _ => None) (fun r => ("data/reports/GO-2024-0001.yaml", None))
      (fun _ => false) (fun _ => ""%string) spec.sampleReport.
Proof.
  apply xref_order_independent.
  - repeat constructor; cbn; intuition discriminate.
  - apply perm_swap.
Defined.

Lemma xref_text_witness :
  vulnreport.xref
    (fun _ => [ ("data/reports/GO-2024-0003.yaml", ["example.com/m"]);
                ("data/reports/GO-2024-0001.yaml", ["CVE-2024-0001"]);
                ("data/excluded/GO-2024-0002.yaml",
                 ["example.com/m"; "CVE-2024-0001"]) ])
    (fun fname =>
       if String.prefix "data/excluded/" fname then Some spec.sampleReport
       else None)
    (fun r => ("data/reports/GO-2024-0001.yaml", None))
    (fun _ => true) (fun _ => "NOT_GO_CODE"%string) spec.sampleReport
  = (String newline
       "CVE-2024-0001 appears in data/excluded/GO-2024-0002.yaml  NOT_GO_CODE"
     ++ String newline
          "example.com/m appears in data/excluded/GO-2024-0002.yaml  NOT_GO_CODE"
     ++ String newline
          "example.com/m appears in data/reports/GO-2024-0003.yaml",
     None)%string.
Proof.
  exact (proj1 (proj2 (xref_text
            (fun fname =>
               if String.prefix "data/excluded/" fname
               then Some spec.sampleReport else None)
            (fun r => ("data/reports/GO-2024-0001.yaml", None))
            (fun _ => true) (fun _ => "NOT_GO_CODE"%string)
            (fun _ => [ ("data/reports/GO-2024-0003.yaml", ["example.com/m"]);
                        ("data/reports/GO-2024-0001.yaml", ["CVE-2024-0001"]);
                        ("data/excluded/GO-2024-0002.yaml",
                         ["example.com/m"; "CVE-2024-0001"]) ])
            spec.sampleReport) "data/reports/GO-2024-0001.yaml" eq_refl)).
Defined.
